(** * Wiki KPI report: a shallow embedding of [Wiki_KPI_Report.py]

    The script reads four spreadsheets, computes four tables and a date
    range, and renders them into one PDF.  The embedding follows the
    script top to bottom:

    - Python values that live in a data-frame cell are the type [cell];
    - exceptions are the type [exn], fallible code returns [result];
    - the module-level statements are the monadic program [run], which
      threads the console and the output file through every statement;
    - library calls (pandas 2, re, collections.Counter, heapq) are
      modelled by their documented behaviour; where a library routine is
      a heuristic that cannot be written down (free-form date guessing,
      numeric-string parsing, the layout of the pages, the order an
      unstable sort leaves among equal keys), it is a [Variable] of a
      [Section];
    - the input of the model is what [pd.read_excel] returns for each
      file, a data frame or an exception; the output is the console and
      the content handed to the PDF renderer.

    Modelling conventions:
    - text is [string] whose characters are the code points 0..255
      (Latin-1), classified and lower-cased as Python does for them;
      text with other characters is outside the model, and so is what
      Unicode does there ([str.lower] turns U+0130 into two characters);
    - a finite float is the rational it denotes; the script never does
      arithmetic on floats, only comparison and [int()]; the widening of
      an [int] to a float keeps its value;
    - a time stamp is its calendar date: the only use of a time stamp is
      [strftime('%B %d, %Y')]; a date-time cell keeps its time of day,
      which decides at the two ends of the time-stamp range whether the
      cell converts;
    - [.values] gives a column the type its cells have in common. *)

From Stdlib Require Import List String Ascii Bool Arith NArith ZArith QArith Lia.
From Stdlib Require Import Permutation Sorted DecimalString DecimalN.
Import ListNotations.

Local Close Scope Q_scope.
Local Open Scope string_scope.
Local Open Scope list_scope.

(** ** Exceptions and results *)

Inductive exn : Type :=
| FileNotFoundError
| IndexError
| KeyError
| TypeError
| ValueError
| OverflowError
| LayoutError.

Inductive result (A : Type) : Type :=
| OK (a : A)
| Raise (e : exn).
Arguments OK {A} a.
Arguments Raise {A} e.

Definition rbind {A B} (r : result A) (f : A -> result B) : result B :=
  match r with
  | OK a => f a
  | Raise e => Raise e
  end.

Fixpoint rmapM {A B} (f : A -> result B) (l : list A) : result (list B) :=
  match l with
  | [] => OK []
  | x :: t => rbind (f x) (fun y => rbind (rmapM f t) (fun ys => OK (y :: ys)))
  end.

(** ** Characters and strings (lines 26-32) *)

Module Str.

Definition code (c : ascii) : N := N_of_ascii c.

Definition between (lo hi : N) (c : ascii) : bool :=
  ((lo <=? code c) && (code c <=? hi))%N.

Definition is_digit (c : ascii) : bool := between 48 57 c.
Definition is_upper_az (c : ascii) : bool := between 65 90 c.
Definition is_lower_az (c : ascii) : bool := between 97 122 c.

(** Code points 128..255 that [str.isalnum] accepts: the letters
    (categories Lu, Ll, Lo) and the numeric characters (category No). *)
Definition is_latin1_alnum (c : ascii) : bool :=
  (code c =? 170)%N || (code c =? 178)%N || (code c =? 179)%N ||
  (code c =? 181)%N || (code c =? 185)%N || (code c =? 186)%N ||
  between 188 190 c || between 192 214 c || between 216 246 c ||
  between 248 255 c.

Definition isalnum (c : ascii) : bool :=
  is_digit c || is_upper_az c || is_lower_az c || is_latin1_alnum c.

Definition underscore : ascii := "_"%char.
Definition space : ascii := " "%char.

(** [\w] of the [re] module on [str] patterns: alphanumeric or underscore. *)
Definition is_word (c : ascii) : bool :=
  isalnum c || Ascii.eqb c underscore.

(** [str.isspace] on code points 0..255. *)
Definition isspace (c : ascii) : bool :=
  between 9 13 c || between 28 32 c || (code c =? 133)%N || (code c =? 160)%N.

(** [str.lower] on one code point: A-Z and the Latin-1 capitals move up
    by 32, everything else is unchanged. *)
Definition lower_char (c : ascii) : ascii :=
  if is_upper_az c || between 192 214 c || between 216 222 c
  then ascii_of_N (code c + 32)
  else c.

Fixpoint lower (s : string) : string :=
  match s with
  | EmptyString => EmptyString
  | String c t => String (lower_char c) (lower t)
  end.

(** [re.sub(p+, ' ', s)] where [p] is the complement of the class [keep]:
    every maximal run of characters outside [keep] becomes one space.
    [in_run] records that the previous character was already replaced. *)
Fixpoint sub_runs (keep : ascii -> bool) (in_run : bool) (s : string) : string :=
  match s with
  | EmptyString => EmptyString
  | String c t =>
      if keep c then String c (sub_runs keep false t)
      else if in_run then sub_runs keep true t
      else String space (sub_runs keep true t)
  end.

(** [str.split()] with no argument: maximal runs of non-whitespace.
    [cur] is the word being scanned. *)
Fixpoint split_from (cur : string) (s : string) : list string :=
  match s with
  | EmptyString => match cur with EmptyString => [] | _ => [cur] end
  | String c t =>
      if isspace c
      then match cur with
           | EmptyString => split_from EmptyString t
           | _ => cur :: split_from EmptyString t
           end
      else split_from (cur ++ String c EmptyString) t
  end.

Definition split (s : string) : list string := split_from EmptyString s.

(** [clean_query], lines 26-32. *)
Definition clean_query (query : string) : list string :=
  let query := lower (sub_runs is_word false query) in
  let words := split query in
  words.

(** The tokenization rule in the words of the specification: runs of
    non-alphanumeric characters are replaced, so the class kept is
    [isalnum]. *)
Definition spec_tokenize (query : string) : list string :=
  split (lower (sub_runs isalnum false query)).

End Str.

(** ** Numbers and cells

    A data-frame cell holds a Python object: text, an [int], a [float]
    (among them NaN, the marker of an empty cell) or a date-time.  A
    date-time is a calendar date and the microseconds since midnight. *)

Inductive pyfloat : Type :=
| NaN
| Inf (negative : bool)
| Fin (q : Q).

Record date : Type := mkDate { year : Z; month : Z; day : Z }.

Inductive cell : Type :=
| CStr (s : string)
| CInt (z : Z)
| CFloat (x : pyfloat)
| CDate (d : date) (us : Z).

(** A pandas time stamp, or NaT. *)
Definition timestamp : Type := option date.
Definition NaT : timestamp := None.

Definition isnan (x : pyfloat) : bool :=
  match x with NaN => true | _ => false end.

(** [x > y] on floats; every comparison with NaN is false. *)
Definition float_gtb (x y : pyfloat) : bool :=
  match x, y with
  | NaN, _ | _, NaN => false
  | Inf true, _ => false
  | Inf false, Inf false => false
  | Inf false, _ => true
  | Fin _, Inf neg => neg
  | Fin p, Fin q => negb (Qle_bool p q)
  end.

(** [int(x)] on a float: truncation toward zero; NaN and the infinities
    have no integer value. *)
Definition int_of_float (x : pyfloat) : result Z :=
  match x with
  | NaN => Raise ValueError
  | Inf _ => Raise OverflowError
  | Fin q => OK (Z.quot (Qnum q) (Zpos (Qden q)))
  end.

(** A number as [pd.to_numeric] delivers it: an [int] or a [float]. *)
Inductive number : Type :=
| NInt (z : Z)
| NFloat (x : pyfloat).

Definition float_of_number (n : number) : pyfloat :=
  match n with
  | NInt z => Fin (inject_Z z)
  | NFloat x => x
  end.

(** ** Calendar dates *)

Module Cal.

Definition is_leap (y : Z) : bool :=
  ((y mod 4 =? 0) && negb (y mod 100 =? 0) || (y mod 400 =? 0))%Z.

Definition days_in_month (y m : Z) : Z :=
  match m with
  | 1 | 3 | 5 | 7 | 8 | 10 | 12 => 31
  | 4 | 6 | 9 | 11 => 30
  | 2 => if is_leap y then 29 else 28
  | _ => 0
  end%Z.

(** A date [datetime] can hold: years 1 to 9999, a real day of the month. *)
Definition valid (d : date) : bool :=
  ((1 <=? year d) && (year d <=? 9999) &&
   (1 <=? month d) && (month d <=? 12) &&
   (1 <=? day d) && (day d <=? days_in_month (year d) (month d)))%Z.

Definition date_leb (a b : date) : bool :=
  ((year a <? year b) ||
   ((year a =? year b) &&
    ((month a <? month b) || ((month a =? month b) && (day a <=? day b)))))%Z.

(** Midnight of [d] fits the 64-bit nanosecond time stamp:
    [Timestamp.min] is 1677-09-21 00:12:43.145224193 and
    [Timestamp.max] is 2262-04-11 23:47:16.854775807. *)
Definition in_bounds (d : date) : bool :=
  date_leb (mkDate 1677 9 22) d && date_leb d (mkDate 2262 4 11).

Definition date_eqb (a b : date) : bool :=
  ((year a =? year b) && (month a =? month b) && (day a =? day b))%Z.

(** The same for a date-time with a time of day: the first microsecond
    of the range is 00:12:43.145225 of its first day, the last one is
    23:47:16.854775 of its last day. *)
Definition in_bounds_at (d : date) (us : Z) : bool :=
  (if date_eqb d (mkDate 1677 9 21) then (763145225 <=? us)%Z
   else date_leb (mkDate 1677 9 22) d)
  && (if date_eqb d (mkDate 2262 4 11) then (us <=? 85636854775)%Z
      else date_leb d (mkDate 2262 4 10)).

Definition month_name (m : Z) : string :=
  match m with
  | 1 => "January" | 2 => "February" | 3 => "March" | 4 => "April"
  | 5 => "May" | 6 => "June" | 7 => "July" | 8 => "August"
  | 9 => "September" | 10 => "October" | 11 => "November"
  | 12 => "December" | _ => ""
  end%Z.

Definition decimal (n : Z) : string :=
  NilZero.string_of_uint (N.to_uint (Z.to_N n)).

(** [%d]: the day of the month as two digits. *)
Definition pad2 (n : Z) : string :=
  if (n <? 10)%Z then "0" ++ decimal n else decimal n.

(** [strftime('%B %d, %Y')], lines 59, 60 and 67. *)
Definition strftime_BdY (d : date) : string :=
  month_name (month d) ++ " " ++ pad2 (day d) ++ ", " ++ decimal (year d).

(** *** The strict format ['%m/%d/%Y'] (line 48)

    pandas compiles the format into the regular expression
    [(?P<m>1[0-2]|0[1-9]|[1-9])/(?P<d>3[0-1]|[1-2]\d|0[1-9]|[1-9]| [1-9])/(?P<Y>\d\d\d\d)]
    and requires the match to cover the whole text.  The alternatives of a
    group are tried in order; since each group is followed by a literal
    that no alternative can consume, ordered choice decides the match. *)

Definition digit_val (c : ascii) : Z := Z.of_N (Str.code c) - 48.

Definition orelse {A} (p q : option A) : option A :=
  match p with Some a => Some a | None => q end.

(** Two characters [a b] with [a] equal to [lead] and [b] between the
    code points [lo] and [hi]; the value is [base] plus the digit [b]. *)
Definition two_chars (lead : ascii) (lo hi : N) (base : Z) (s : string)
  : option (Z * string) :=
  match s with
  | String a (String b t) =>
      if Ascii.eqb a lead && Str.between lo hi b
      then Some ((base + digit_val b)%Z, t) else None
  | _ => None
  end.

Definition one_char (lo hi : N) (s : string) : option (Z * string) :=
  match s with
  | String a t => if Str.between lo hi a then Some (digit_val a, t) else None
  | _ => None
  end.

Definition group_m (s : string) : option (Z * string) :=
  orelse (two_chars "1" 48 50 10 s)
  (orelse (two_chars "0" 49 57 0 s)
          (one_char 49 57 s)).

Definition group_d (s : string) : option (Z * string) :=
  orelse (two_chars "3" 48 49 30 s)
  (orelse (two_chars "1" 48 57 10 s)
  (orelse (two_chars "2" 48 57 20 s)
  (orelse (two_chars "0" 49 57 0 s)
  (orelse (one_char 49 57 s)
          (two_chars " " 49 57 0 s))))).

Definition group_Y (s : string) : option (Z * string) :=
  match s with
  | String a (String b (String c (String d t))) =>
      if Str.is_digit a && Str.is_digit b && Str.is_digit c && Str.is_digit d
      then Some ((1000 * digit_val a + 100 * digit_val b
                  + 10 * digit_val c + digit_val d)%Z, t)
      else None
  | _ => None
  end.

Definition slash (s : string) : option string :=
  match s with
  | String c t => if Ascii.eqb c "/" then Some t else None
  | _ => None
  end.

(** The fields of a text that matches the format entirely. *)
Definition match_mdY (s : string) : option date :=
  match group_m s with
  | Some (m, s1) =>
    match slash s1 with
    | Some s2 =>
      match group_d s2 with
      | Some (d, s3) =>
        match slash s3 with
        | Some s4 =>
          match group_Y s4 with
          | Some (y, EmptyString) => Some (mkDate y m d)
          | _ => None
          end
        | None => None
        end
      | None => None
      end
    | None => None
    end
  | None => None
  end.

(** [pd.to_datetime(c, format='%m/%d/%Y', errors='coerce')], lines 51-52.
    Text must match the format and denote a real date inside the time
    stamp range; a date-time object is taken as it is when it is inside
    the range, and only its date is used afterwards; a number is turned
    into its decimal text, which has no ['/'], so no number matches;
    every failure is coerced to NaT. *)
Definition to_datetime_strict (c : cell) : timestamp :=
  match c with
  | CStr s =>
      match match_mdY s with
      | Some d => if valid d && in_bounds d then Some d else NaT
      | None => NaT
      end
  | CDate d us => if in_bounds_at d us then Some d else NaT
  | CInt _ => NaT
  | CFloat _ => NaT
  end.

End Cal.

(** ** The unused serial-date helper (lines 11-24)

    [excel_date_to_datetime] is defined by the script and never called.
    [int(text)] accepts surrounding whitespace, one sign, and decimal
    digits with single underscores between digits, up to 4300 digits. *)

Module Serial.

Local Open Scope Z_scope.

(** The whitespace [int()] skips: tab to carriage return and the space,
    and, because text that is not ASCII has its Unicode spaces turned
    into spaces first, U+0085 and U+00A0.  The separators U+001C to
    U+001F are white space for [str.isspace] but not for [int()]. *)
Definition is_int_space (c : ascii) : bool :=
  Str.between 9 13 c || (Str.code c =? 32)%N
  || (Str.code c =? 133)%N || (Str.code c =? 160)%N.

Fixpoint lstrip (s : string) : string :=
  match s with
  | String c t => if is_int_space c then lstrip t else s
  | EmptyString => EmptyString
  end.

(** [sys.get_int_max_str_digits()], the default. *)
Definition max_str_digits : nat := 4300.

Fixpoint count_digits (s : string) : nat :=
  match s with
  | String c t => if Str.is_digit c then S (count_digits t) else count_digits t
  | EmptyString => O
  end.

(** Digits of an integer literal after its first digit: [acc] is the
    value so far, [after_us] tells that the previous character was an
    underscore.  Trailing whitespace ends the literal. *)
Fixpoint digits_tail (acc : Z) (after_us : bool) (s : string) : option Z :=
  match s with
  | EmptyString => if after_us then None else Some acc
  | String c t =>
      if Str.is_digit c then digits_tail (10 * acc + Cal.digit_val c) false t
      else if Ascii.eqb c Str.underscore
      then if after_us then None else digits_tail acc true t
      else if after_us then None
      else match lstrip s with EmptyString => Some acc | _ => None end
  end.

Definition digits (s : string) : option Z :=
  match s with
  | String c t => if Str.is_digit c then digits_tail (Cal.digit_val c) false t else None
  | EmptyString => None
  end.

(** [int(s)], or [None] where it raises [ValueError]: when the text is
    not a literal, and when the literal has more digits than the limit. *)
Definition int_of_string (s : string) : option Z :=
  if (max_str_digits <? count_digits s)%nat then None
  else
    match lstrip s with
    | String "-" t => option_map Z.opp (digits t)
    | String "+" t => digits t
    | t => digits t
    end.

(** [int(x)] on a cell value. *)
Definition int_of_cell (c : cell) : result Z :=
  match c with
  | CInt z => OK z
  | CFloat x => int_of_float x
  | CStr s => match int_of_string s with Some z => OK z | None => Raise ValueError end
  | CDate _ _ => Raise TypeError
  end.

(** Proleptic Gregorian ordinals, as in the [datetime] module. *)
Definition days_before_year (y : Z) : Z :=
  let y := y - 1 in y * 365 + y / 4 - y / 100 + y / 400.

Definition days_before_month (leap : bool) (m : Z) : Z :=
  match m with
  | 1 => 0 | 2 => 31 | 3 => 59 | 4 => 90 | 5 => 120 | 6 => 151
  | 7 => 181 | 8 => 212 | 9 => 243 | 10 => 273 | 11 => 304 | _ => 334
  end + (if (2 <? m) && leap then 1 else 0).

Definition ymd2ord (d : date) : Z :=
  days_before_year (year d)
  + days_before_month (Cal.is_leap (year d)) (month d) + day d.

Definition ord2ymd (n : Z) : date :=
  let n := n - 1 in
  let n400 := n / 146097 in
  let n := n mod 146097 in
  let n100 := n / 36524 in
  let n := n mod 36524 in
  let n4 := n / 1461 in
  let n := n mod 1461 in
  let n1 := n / 365 in
  let n := n mod 365 in
  let y := n400 * 400 + 1 + n100 * 100 + n4 * 4 + n1 in
  if (n1 =? 4) || (n100 =? 4) then mkDate (y - 1) 12 31
  else
    let leapyear := (n1 =? 3) && (negb (n4 =? 24) || (n100 =? 3)) in
    let m := Z.shiftr (n + 50) 5 in
    let preceding := days_before_month leapyear m in
    if preceding >? n
    then let m := m - 1 in
         mkDate y m (n - days_before_month leapyear m + 1)
    else mkDate y m (n - preceding + 1).

Definition MAXORDINAL : Z := 3652059.

(** [excel_date_to_datetime], lines 11-24: only [ValueError] is caught. *)
Definition excel_date_to_datetime (excel_date : cell) : result (option date) :=
  match excel_date with
  | CFloat NaN => OK None
  | _ =>
      match int_of_cell excel_date with
      | OK serial_date =>
          let excel_epoch := mkDate 1899 12 30 in
          let ordinal := ymd2ord excel_epoch + serial_date in
          if (Z.abs serial_date <=? 999999999) && (0 <? ordinal) && (ordinal <=? MAXORDINAL)
          then OK (Some (ord2ymd ordinal))
          else Raise OverflowError
      | Raise ValueError => OK None
      | Raise e => Raise e
      end
  end.

End Serial.

(** ** Data frames

    A frame is a rectangular grid of cells addressed by position.  The
    frames read with [header=None] have the column labels 0, 1, 2, ...
    so a label is a position. *)

Record frame : Type := mkFrame {
  nrows : nat;
  ncols : nat;
  cell_at : nat -> nat -> cell
}.

Definition table : Type := list (list cell).

(** A frame from rows of cells; short rows are filled with NaN. *)
Definition frame_of_rows (width : nat) (rows : table) : frame :=
  mkFrame (List.length rows) width
          (fun i j => nth j (nth i rows []) (CFloat NaN)).

(** [df.iloc[i, j]] *)
Definition iloc (df : frame) (i j : nat) : result cell :=
  if ((i <? nrows df) && (j <? ncols df))%nat then OK (cell_at df i j)
  else Raise IndexError.

(** The row positions selected by the slice [a:b]. *)
Definition row_slice (df : frame) (a b : nat) : list nat :=
  seq a (Nat.min b (nrows df) - a).

(** *** Column types and [.values]

    A column whose cells are all [int] is stored as int64, a column
    whose cells are all [float] as float64; any other column holds
    objects.  [.values] of several columns is one array of their common
    type: next to a float column the ints of an int column become
    floats; next to an object column every cell stays as it is. *)

Inductive dtype : Type := Int64 | Float64 | Object.

Definition cell_dtype (c : cell) : dtype :=
  match c with
  | CInt _ => Int64
  | CFloat _ => Float64
  | _ => Object
  end.

Definition same_dtype (a b : dtype) : dtype :=
  match a, b with
  | Int64, Int64 => Int64
  | Float64, Float64 => Float64
  | _, _ => Object
  end.

Definition series_dtype (cells : list cell) : dtype :=
  match cells with
  | [] => Object
  | c :: t => fold_left (fun d x => same_dtype d (cell_dtype x)) t (cell_dtype c)
  end.

Definition column_dtype (df : frame) (j : nat) : dtype :=
  series_dtype (map (fun i => cell_at df i j) (seq 0 (nrows df))).

(** [np.result_type] of two column types. *)
Definition common (a b : dtype) : dtype :=
  match a, b with
  | Object, _ | _, Object => Object
  | Int64, Int64 => Int64
  | _, _ => Float64
  end.

Definition values_dtype (dtypes : list dtype) : dtype :=
  match dtypes with
  | [] => Object
  | d :: t => fold_left common t d
  end.

(** A cell in an array of type [d]. *)
Definition astype (d : dtype) (c : cell) : cell :=
  match d, c with
  | Float64, CInt z => CFloat (Fin (inject_Z z))
  | _, _ => c
  end.

(** [.values] of the rows [rows] and the columns [cols] of a frame. *)
Definition values (df : frame) (rows cols : list nat) : table :=
  let d := values_dtype (map (column_dtype df) cols) in
  map (fun i => map (fun j => astype d (cell_at df i j)) cols) rows.

(** [df.iloc[a:b, :k].values.tolist()]: slices never fail. *)
Definition iloc_block (df : frame) (a b k : nat) : table :=
  values df (row_slice df a b) (seq 0 (Nat.min k (ncols df))).

(** [df.iloc[a:b, cols].values]: a list of positions must be in range. *)
Definition iloc_cols (df : frame) (a b : nat) (cols : list nat) : result table :=
  if forallb (fun j => (j <? ncols df)%nat) cols
  then OK (values df (row_slice df a b) cols)
  else Raise IndexError.

(** [df[j]]: the column labelled [j]. *)
Definition column (df : frame) (j : nat) : result (list cell) :=
  if (j <? ncols df)%nat
  then OK (map (fun i => cell_at df i j) (seq 0 (nrows df)))
  else Raise KeyError.

(** [row[i]] *)
Definition getitem (row : list cell) (i : nat) : result cell :=
  match nth_error row i with
  | Some c => OK c
  | None => Raise IndexError
  end.

(** ** Stable selection of the largest

    [sorted(xs, key=..., reverse=True)] keeps the input order among equal
    keys.  [gtb x y] says that the key of [x] is strictly greater. *)

Section Selection.

Variable A : Type.
Variable gtb : A -> A -> bool.

Fixpoint insert_desc (x : A) (l : list A) : list A :=
  match l with
  | [] => [x]
  | y :: t => if gtb y x then y :: insert_desc x t else x :: y :: t
  end.

Definition sort_desc (l : list A) : list A := fold_right insert_desc [] l.

(** The order of the output, given the order [ord] of the input: greater
    first; among equals, the input order. *)
Variable ord : A -> A -> Prop.

Definition sorted_rel (a b : A) : Prop :=
  gtb a b = true \/ (gtb b a = false /\ ord a b).

End Selection.

Arguments insert_desc {A} gtb x l.
Arguments sort_desc {A} gtb l.
Arguments sorted_rel {A} gtb ord a b.

(** ** [collections.Counter] (lines 78-80)

    A counter is a dictionary: it keeps its keys in the order of their
    first insertion. *)

Fixpoint counter_incr (w : string) (c : list (string * Z)) : list (string * Z) :=
  match c with
  | [] => [(w, 1%Z)]
  | (k, n) :: t =>
      if String.eqb k w then (k, (n + 1)%Z) :: t
      else (k, n) :: counter_incr w t
  end.

Definition Counter (words : list string) : list (string * Z) :=
  fold_left (fun c w => counter_incr w c) words [].

(** [most_common(n)] is [heapq.nlargest(n, items, key=count)], that is
    [sorted(items, key=count, reverse=True)[:n]]. *)
Definition most_common (n : nat) (c : list (string * Z)) : list (string * Z) :=
  firstn n (sort_desc (fun a b => (snd a >? snd b)%Z) c).

(** ** [DataFrame.nlargest] (line 88)

    The rows with a number come first, largest first; the rows with NaN
    follow in their original order; the first [n] of them are kept.
    With more than [n] rows the numbers are put in order by a stable
    sort, so equal values stay in file order.  With [n] rows or fewer
    pandas calls [sort_values], whose default sort is not stable: the
    order it leaves among equal values is [rank keys], a place for each
    position of the sorted keys; a smaller place comes first. *)

Definition by_value {A} (a b : A * pyfloat) : bool := float_gtb (snd a) (snd b).

Definition unstable_sort_desc {A} (rank : list pyfloat -> nat -> Z)
           (rows : list (A * pyfloat)) : list (A * pyfloat) :=
  let keys := map snd rows in
  let placed := combine (map (rank keys) (seq 0 (List.length rows))) rows in
  let by_place := sort_desc (fun a b => (fst a <? fst b)%Z) placed in
  map snd (sort_desc (fun a b => by_value (snd a) (snd b)) by_place).

(** The rows with a number, in order. *)
Definition ranked_numbers {A} (rank : list pyfloat -> nat -> Z) (n : nat)
           (rows : list (A * pyfloat)) : list (A * pyfloat) :=
  let numbers := filter (fun r => negb (isnan (snd r))) rows in
  if (n <? List.length rows)%nat then sort_desc by_value numbers
  else unstable_sort_desc rank numbers.

Definition nlargest {A} (rank : list pyfloat -> nat -> Z) (n : nat)
           (rows : list (A * pyfloat)) : list (A * pyfloat) :=
  firstn n (ranked_numbers rank n rows ++ filter (fun r => isnan (snd r)) rows).

(** ** The report *)

Inductive style : Type := Heading1 | DateStyle.

Inductive flowable : Type :=
| Paragraph (text : string) (st : style)
| Spacer (width height : Z)
| Table (data : table) (colWidths : list Z).

(** What the program can observe and change: the console and the file
    [wiki_kpi_report.pdf]. *)
Record world : Type := mkWorld {
  stdout : list string;
  pdf_file : option (list flowable)
}.

(** The four spreadsheets as [pd.read_excel] returns them, or the
    exception it raises. *)
Record inputs : Type := mkInputs {
  categories_xls : result frame;
  questions_xls : result frame;
  searches_xls : result frame;
  users_xls : result frame
}.

(** Statements: a result and the world after it.  An exception leaves
    the world as it was when it was raised. *)
Definition M (A : Type) : Type := world -> result A * world.

Definition ret {A} (a : A) : M A := fun w => (OK a, w).

Definition bind {A B} (m : M A) (f : A -> M B) : M B :=
  fun w => match m w with
           | (OK a, w') => f a w'
           | (Raise e, w') => (Raise e, w')
           end.

Definition lift {A} (r : result A) : M A := fun w => (r, w).

Definition print (line : string) : M unit :=
  fun w => (OK tt, mkWorld (stdout w ++ [line]) (pdf_file w)).

Declare Scope stmt_scope.
Delimit Scope stmt_scope with stmt.
Notation "x <- m ;; k" := (bind m (fun x => k))
  (at level 61, m at next level, right associativity) : stmt_scope.
Notation "m ;;; k" := (bind m (fun _ => k))
  (at level 61, right associativity) : stmt_scope.
Notation "x <~ r ;; k" := (rbind r (fun x => k))
  (at level 61, r at next level, right associativity) : stmt_scope.

Local Open Scope stmt_scope.

Definition date_error_line : string :=
  "Error: Start or end date is missing or invalid in the Excel file.".
Definition success_line : string := "PDF report generated successfully!".
Definition Unavailable : string := "Unavailable".

(** Lines 48-60. *)
Definition date_range (categories_df : frame) : M (string * string) :=
  start_date_serial <- lift (iloc categories_df 0 1) ;;
  end_date_serial <- lift (iloc categories_df 1 1) ;;
  let start_date := Cal.to_datetime_strict start_date_serial in
  let end_date := Cal.to_datetime_strict end_date_serial in
  match start_date, end_date with
  | Some s, Some e => ret (Cal.strftime_BdY s, Cal.strftime_BdY e)
  | _, _ => print date_error_line ;;; ret (Unavailable, Unavailable)
  end.

(** Line 98. *)
Definition date_paragraph (formatted : string * string) : flowable :=
  Paragraph ("Data from " ++ fst formatted ++ " to " ++ snd formatted) DateStyle.

(** Line 62. *)
Definition category_rows (categories_df : frame) : table :=
  iloc_block categories_df 4 14 2.

(** Lines 76-83, after the queries were cleaned. *)
Definition search_table (cleaned : list (list string)) : table :=
  let all_words := List.concat cleaned in
  let word_counts := Counter all_words in
  let most_common_words := most_common 5 word_counts in
  let search_data := map (fun wc => [CStr (fst wc); CInt (snd wc)]) most_common_words in
  [CStr "Query"; CStr "Searches"] :: search_data.

(** [clean_query] applied to a cell: [re.sub] wants text. *)
Definition clean_query_cell (c : cell) : result (list string) :=
  match c with
  | CStr s => OK (Str.clean_query s)
  | _ => Raise TypeError
  end.

(** Lines 74-83. *)
Definition search_data (searches_df : frame) : result table :=
  queries <~ column searches_df 1 ;;
  cleaned <~ rmapM clean_query_cell queries ;;
  OK (search_table cleaned).

(** [NaT.strftime] raises. *)
Definition strftime_ts (t : timestamp) : result string :=
  match t with
  | Some d => OK (Cal.strftime_BdY d)
  | None => Raise ValueError
  end.

Section Library.

(** [pd.to_datetime(x)] without a format: the library guesses the
    format of a text and reads a number as an offset from its epoch. *)
Variable to_datetime : cell -> result timestamp.

(** What [pd.to_numeric(..., errors='coerce')] makes of an object that
    is not a number: the value of a numeric text, NaN otherwise. *)
Variable numeric_of_object : cell -> number.

(** The layout of the pages by reportlab: it succeeds or raises (a row
    too high for a page raises [LayoutError]). *)
Variable render : list flowable -> result unit.

(** [doc.build(story)], line 155: the pages are laid out, then the file
    is written; when the layout raises, nothing has been written. *)
Definition build (story : list flowable) : M unit :=
  fun w => match render story with
           | OK _ => (OK tt, mkWorld (stdout w) (Some story))
           | Raise e => (Raise e, w)
           end.

(** The order in which the default sort of numpy leaves equal keys. *)
Variable tie_rank : list pyfloat -> nat -> Z.

(** Line 67, one row. *)
Definition questions_row (row : list cell) : result (list cell) :=
  article <~ getitem row 0 ;;
  views <~ getitem row 1 ;;
  updated <~ getitem row 2 ;;
  ts <~ to_datetime updated ;;
  formatted <~ strftime_ts ts ;;
  OK [article; views; CStr formatted].

(** Lines 66-69. *)
Definition questions_data (questions_df : frame) : result table :=
  rows <~ iloc_cols questions_df 4 14 [1; 3; 8] ;;
  data <~ rmapM questions_row rows ;;
  OK ([CStr "Article"; CStr "Views"; CStr "Last Updated"] :: data).

(** Line 87, one cell. *)
Definition to_numeric (c : cell) : number :=
  match c with
  | CInt z => NInt z
  | CFloat x => NFloat x
  | _ => numeric_of_object c
  end.

(** The type of the column that line 87 stores: integers when every
    cell came out as an integer, floats otherwise. *)
Definition numeric_dtype (numbers : list number) : dtype :=
  if forallb (fun n => match n with NInt _ => true | NFloat _ => false end) numbers
  then Int64 else Float64.

(** The rows from position 4 on with their name and numeric views. *)
Definition user_rows (users_df : frame) : list (cell * pyfloat) :=
  map (fun i => (cell_at users_df i 0,
                 float_of_number (to_numeric (cell_at users_df i 3))))
      (seq 4 (nrows users_df - 4)).

(** Line 90, one row. *)
Definition user_row (r : cell * pyfloat) : result (list cell) :=
  views <~ int_of_float (snd r) ;;
  OK [fst r; CInt views].

(** Lines 87-91.  [.values] of line 89 puts the names and the views
    into one array. *)
Definition user_data (users_df : frame) : result table :=
  views <~ column users_df 3 ;;
  let numbers := map to_numeric views in
  let top_users := nlargest tie_rank 10 (user_rows users_df) in
  let d := common (column_dtype users_df 0) (numeric_dtype numbers) in
  let user_data := map (fun r => (astype d (fst r), snd r)) top_users in
  data <~ rmapM user_row user_data ;;
  OK ([CStr "User"; CStr "Views"] :: data).

(** Lines 97-152. *)
Definition story_of (dates : string * string)
           (category questions search user : table) : list flowable :=
  [ Paragraph "Wiki KPI Report" Heading1;
    date_paragraph dates;
    Spacer 1 12;
    Paragraph "Top 10 Most Viewed Categories" Heading1;
    Table category [200; 100]%Z;
    Paragraph "Top 10 Most Viewed Articles" Heading1;
    Table questions [300; 75; 95]%Z;
    Paragraph "Top 5 Most Used Search Queries" Heading1;
    Table search [200; 100]%Z;
    Paragraph "Top 10 Users by Articles Viewed" Heading1;
    Table user [200; 100]%Z ].

(** The script, lines 34-156. *)
Definition run (files : inputs) : M unit :=
  categories_df <- lift (categories_xls files) ;;
  dates <- date_range categories_df ;;
  let category_data := category_rows categories_df in
  questions_df <- lift (questions_xls files) ;;
  questions <- lift (questions_data questions_df) ;;
  searches_df <- lift (searches_xls files) ;;
  search <- lift (search_data searches_df) ;;
  users_df <- lift (users_xls files) ;;
  user <- lift (user_data users_df) ;;
  let category_data := [CStr "Categories"; CStr "Views"] :: category_data in
  build (story_of dates category_data questions search user) ;;;
  print success_line.

End Library.

(** The statements between the date range and the rendering (lines
    65-91) as one fallible computation: the three tables they build. *)
Definition later_tables (to_datetime : cell -> result timestamp)
           (numeric_of_object : cell -> number)
           (tie_rank : list pyfloat -> nat -> Z) (files : inputs)
  : result (table * table * table) :=
  questions_df <~ questions_xls files ;;
  questions <~ questions_data to_datetime questions_df ;;
  searches_df <~ searches_xls files ;;
  search <~ search_data searches_df ;;
  users_df <~ users_xls files ;;
  user <~ user_data numeric_of_object tie_rank users_df ;;
  OK (questions, search, user).

(** The two printed dates of lines 54-60, without the console. *)
Definition formatted_dates (c1 c2 : cell) : string * string :=
  match Cal.to_datetime_strict c1, Cal.to_datetime_strict c2 with
  | Some s, Some e => (Cal.strftime_BdY s, Cal.strftime_BdY e)
  | _, _ => (Unavailable, Unavailable)
  end.

(** The content handed to the renderer, lines 97-152. *)
Definition report (categories_df : frame) (c1 c2 : cell)
           (tables : table * table * table) : list flowable :=
  let '(questions, search, user) := tables in
  story_of (formatted_dates c1 c2)
           ([CStr "Categories"; CStr "Views"] :: category_rows categories_df)
           questions search user.

(** ** Sample files

    A minimal library to run the model: [to_datetime] converts date
    cells and empty cells only, no text is numeric, every layout
    succeeds ([render]) or none does ([no_room]), and the unstable sort
    leaves equal keys in file order ([tie_rank]) or in the reverse
    order ([reverse_rank]). *)

Module Sample.

Definition to_datetime (c : cell) : result timestamp :=
  match c with
  | CDate d _ => OK (Some d)
  | CFloat NaN => OK NaT
  | CStr _ => Raise ValueError
  | _ => Raise TypeError
  end.

Definition numeric_of_object (c : cell) : number := NFloat NaN.

Definition render (story : list flowable) : result unit := OK tt.

Definition tie_rank (keys : list pyfloat) (i : nat) : Z := Z.of_nat i.

Definition reverse_rank (keys : list pyfloat) (i : nat) : Z := (- Z.of_nat i)%Z.

(** A layout that fails, as when a row is too high for the page. *)
Definition no_room (story : list flowable) : result unit := Raise LayoutError.

Definition empty : cell := CFloat NaN.

Definition categories (start_cell end_cell : cell) : frame :=
  frame_of_rows 2
    [ [CStr "Start"; start_cell];
      [CStr "End"; end_cell];
      [empty; empty];
      [CStr "Category"; CStr "Views"];
      [CStr "Billing"; CInt 40];
      [CStr "Login"; CInt 12] ].

Definition questions (updated : cell) : frame :=
  frame_of_rows 9
    [ [empty]; [empty]; [empty]; [empty];
      [CInt 1; CStr "Reset a password"; empty; CInt 31; empty; empty; empty;
       empty; updated] ].

Definition searches : frame :=
  frame_of_rows 2
    [ [CInt 1; CStr "Reset password"];
      [CInt 2; CStr "password reset!"];
      [CInt 3; CStr "VPN"];
      [CInt 4; CStr "vpn login"] ].

Definition users (views : cell) : frame :=
  frame_of_rows 4
    [ [empty]; [empty]; [empty];
      [CStr "User"; empty; empty; CStr "Views"];
      [CStr "alice"; empty; empty; CInt 5];
      [CStr "bob"; empty; empty; views];
      [CStr "carol"; empty; empty; CFloat (Fin (15 # 2))] ].

Definition files (start_cell end_cell updated views : cell) : inputs :=
  mkInputs (OK (categories start_cell end_cell)) (OK (questions updated))
           (OK searches) (OK (users views)).

Definition good : inputs :=
  files (CStr "03/01/2024") (CStr "3/31/2024")
        (CDate (mkDate 2024 2 9) 0) (CInt 5).

(** A categories sheet that ends after its first row, and the files
    with it. *)
Definition one_row : frame :=
  frame_of_rows 2 [ [CStr "Start"; CStr "03/01/2024"] ].

Definition short : inputs :=
  mkInputs (OK one_row) (questions_xls good) (searches_xls good) (users_xls good).

Definition world0 : world := mkWorld [] None.

End Sample.

(** [str] predicate "every character is in the class". *)
Fixpoint string_all (p : ascii -> bool) (s : string) : bool :=
  match s with
  | EmptyString => true
  | String c t => p c && string_all p t
  end.

(** The date range is unavailable: one of the two cells is not a date
    in the strict format. *)
Definition dates_unavailable (c1 c2 : cell) : bool :=
  match Cal.to_datetime_strict c1, Cal.to_datetime_strict c2 with
  | Some _, Some _ => false
  | _, _ => true
  end.

(** Some read, indexing, parse, selection or layout step of the script
    raises.  The strict parse of the two date cells is not among them: it
    cannot raise. *)
Inductive step_fails (to_datetime : cell -> result timestamp)
          (numeric_of_object : cell -> number)
          (render : list flowable -> result unit)
          (tie_rank : list pyfloat -> nat -> Z) (files : inputs) : Prop :=
| fail_read_categories e :
    categories_xls files = Raise e -> step_fails to_datetime numeric_of_object render tie_rank files
| fail_start_cell df e :
    categories_xls files = OK df -> iloc df 0 1 = Raise e ->
    step_fails to_datetime numeric_of_object render tie_rank files
| fail_end_cell df e :
    categories_xls files = OK df -> iloc df 1 1 = Raise e ->
    step_fails to_datetime numeric_of_object render tie_rank files
| fail_read_questions e :
    questions_xls files = Raise e -> step_fails to_datetime numeric_of_object render tie_rank files
| fail_questions_data df e :
    questions_xls files = OK df -> questions_data to_datetime df = Raise e ->
    step_fails to_datetime numeric_of_object render tie_rank files
| fail_read_searches e :
    searches_xls files = Raise e -> step_fails to_datetime numeric_of_object render tie_rank files
| fail_search_data df e :
    searches_xls files = OK df -> search_data df = Raise e ->
    step_fails to_datetime numeric_of_object render tie_rank files
| fail_read_users e :
    users_xls files = Raise e -> step_fails to_datetime numeric_of_object render tie_rank files
| fail_user_data df e :
    users_xls files = OK df -> user_data numeric_of_object tie_rank df = Raise e ->
    step_fails to_datetime numeric_of_object render tie_rank files
| fail_build df c1 c2 tables e :
    categories_xls files = OK df -> iloc df 0 1 = OK c1 -> iloc df 1 1 = OK c2 ->
    later_tables to_datetime numeric_of_object tie_rank files = OK tables ->
    render (report df c1 c2 tables) = Raise e ->
    step_fails to_datetime numeric_of_object render tie_rank files.

(** The number of times a word occurs among the words. *)
Definition occurrences (ws : list string) (w : string) : Z :=
  Z.of_nat (count_occ string_dec ws w).

(** The position at which a word occurs first, that is the moment it is
    inserted into the counter. *)
Fixpoint first_index (ws : list string) (w : string) : nat :=
  match ws with
  | [] => 0
  | x :: t => if String.eqb x w then 0 else S (first_index t w)
  end.

(** [a] is listed before [b]: it occurs more often, or as often and it
    was inserted first. *)
Definition ranks_before (ws : list string) (a b : string) : Prop :=
  (occurrences ws a > occurrences ws b)%Z
  \/ (occurrences ws a = occurrences ws b /\ first_index ws a < first_index ws b).

Definition sum_Z (l : list Z) : Z := fold_right Z.add 0%Z l.

(** [word_counts[w]]: the count of a key, 0 for a word that is not a key. *)
Fixpoint counter_get (c : list (string * Z)) (w : string) : Z :=
  match c with
  | [] => 0%Z
  | (k, n) :: t => if String.eqb k w then n else counter_get t w
  end.

(** [x == y] on floats: both are numbers and neither is greater. *)
Definition float_eqb (x y : pyfloat) : bool :=
  negb (isnan x) && negb (isnan y)
  && negb (float_gtb x y) && negb (float_gtb y x).

(** A character of a token: a word character that lower-casing leaves
    as it is. *)
Definition token_char (c : ascii) : bool :=
  Str.is_word c && Ascii.eqb (Str.lower_char c) c.

(** The words of a query read off in one pass: the maximal runs of word
    characters, lower-cased.  [cur] is the word being read.  It is the
    yardstick [clean_query] is compared with. *)
Fixpoint words_from (cur : string) (s : string) : list string :=
  match s with
  | EmptyString => match cur with EmptyString => [] | _ => [cur] end
  | String c t =>
      if Str.is_word c
      then words_from (cur ++ String (Str.lower_char c) EmptyString) t
      else match cur with
           | EmptyString => words_from EmptyString t
           | _ => cur :: words_from EmptyString t
           end
  end.

(** The integer in the views column of a two-column table row. *)
Definition views_of_row (row : list cell) : Z :=
  match row with
  | [_; CInt z] => z
  | _ => 0%Z
  end.

(** A users file with eleven numeric rows and one row without a number. *)
Definition busy_users : frame :=
  frame_of_rows 4
    (repeat [Sample.empty] 4
     ++ map (fun k => [CStr "user"; Sample.empty; Sample.empty; CInt (Z.of_nat k)])
            (seq 0 11)
     ++ [[CStr "guest"; Sample.empty; Sample.empty; CStr "n/a"]]).

(** A users file with twelve rows of equal views, named ["0"] to ["11"]. *)
Definition tied_users : frame :=
  frame_of_rows 4
    (repeat [Sample.empty] 4
     ++ map (fun k => [CStr (Cal.decimal (Z.of_nat k)); Sample.empty; Sample.empty;
                       CInt 5])
            (seq 0 12)).

(** The same day and month [k] years later. *)
Definition shift_years (k : Z) (d : date) : date :=
  mkDate (year d + k) (month d) (day d).

(** The ordinal [r + 1] of the 400-year cycle converts to a real date
    of the years 1 to 400 and back; the ordinals up to 145731 stay
    below the year 400. *)
Definition cycle_day_ok (r : Z) : bool :=
  let n := (r + 1)%Z in
  let d := Serial.ord2ymd n in
  (Cal.valid d && (Serial.ymd2ord d =? n) && (year d <=? 400)
   && ((145730 <? r) || (year d <=? 399)))%Z.

(** [f] holds of the [count] integers from [start] on. *)
Fixpoint all_from (f : Z -> bool) (start : Z) (count : nat) : bool :=
  match count with
  | O => true
  | S k => f start && all_from f (start + 1)%Z k
  end.

(** The year text of one year of the time-stamp range reads back as
    that year. *)
Definition year_text_ok (y : Z) : bool :=
  match Cal.group_Y (Cal.decimal y) with
  | Some (v, EmptyString) => (v =? y)%Z
  | _ => false
  end.

(** Case analysis on the 256 code points. *)
Ltac each_char c :=
  destruct c as [[] [] [] [] [] [] [] []]; vm_compute; try reflexivity;
  try discriminate; auto.

(** * Properties *)

(** ** Tokenization *)

Lemma word_not_space (c : ascii) :
  Str.is_word c = true -> Str.isspace (Str.lower_char c) = false.
Proof. each_char c. Qed.

Lemma alnum_is_word (c : ascii) : Str.isalnum c = true -> Str.is_word c = true.
Proof. unfold Str.is_word. intros ->. reflexivity. Qed.

Lemma string_all_app (p : ascii -> bool) (s t : string) :
  string_all p (s ++ t) = string_all p s && string_all p t.
Proof.
  induction s as [|c s IH]; simpl; [reflexivity|].
  rewrite IH. now rewrite andb_assoc.
Qed.

Lemma string_all_impl (p q : ascii -> bool) (s : string) :
  (forall c, p c = true -> q c = true) ->
  string_all p s = true -> string_all q s = true.
Proof.
  intros Hpq. induction s as [|c s IH]; simpl; [reflexivity|].
  intros H. apply andb_true_iff in H as [Hc Hs].
  now rewrite (Hpq c Hc), IH.
Qed.

Lemma lower_app (s t : string) : Str.lower (s ++ t) = (Str.lower s ++ Str.lower t)%string.
Proof. induction s as [|c s IH]; simpl; [reflexivity|]. now rewrite IH. Qed.

(** Text made of kept characters goes through [re.sub] unchanged. *)
Lemma sub_runs_kept (keep : ascii -> bool) (b : bool) (s : string) :
  string_all keep s = true -> Str.sub_runs keep b s = s.
Proof.
  revert b. induction s as [|c s IH]; intros b; simpl; [reflexivity|].
  intros H. apply andb_true_iff in H as [Hc Hs].
  rewrite Hc. now rewrite IH.
Qed.

Lemma append_assoc (a b c : string) : ((a ++ b) ++ c = a ++ (b ++ c))%string.
Proof. induction a as [|x a IH]; simpl; [reflexivity|]. now rewrite IH. Qed.

Lemma append_empty_r (a : string) : (a ++ "")%string = a.
Proof. induction a as [|x a IH]; simpl; [reflexivity|]. now rewrite IH. Qed.

(** A word without whitespace is one token. *)
Lemma split_from_word (cur s : string) :
  string_all (fun c => negb (Str.isspace c)) s = true ->
  (cur ++ s)%string <> EmptyString ->
  Str.split_from cur s = [(cur ++ s)%string].
Proof.
  revert cur. induction s as [|c s IH]; intros cur Hs Hne; simpl.
  - rewrite append_empty_r in *. destruct cur; [congruence | reflexivity].
  - simpl in Hs. apply andb_true_iff in Hs as [Hc Hs].
    apply negb_true_iff in Hc. rewrite Hc.
    rewrite IH; auto.
    + now rewrite append_assoc.
    + rewrite append_assoc. simpl. destruct cur; discriminate.
Qed.

Lemma lower_no_space (s : string) :
  string_all Str.is_word s = true ->
  string_all (fun c => negb (Str.isspace c)) (Str.lower s) = true.
Proof.
  induction s as [|c s IH]; simpl; [reflexivity|].
  intros H. apply andb_true_iff in H as [Hc Hs].
  now rewrite (word_not_space c Hc), IH.
Qed.

(** A non-empty query of word characters is its own single token,
    lower-cased. *)
Lemma clean_query_word (s : string) :
  string_all Str.is_word s = true -> s <> EmptyString ->
  Str.clean_query s = [Str.lower s].
Proof.
  intros Hw Hne. unfold Str.clean_query, Str.split.
  rewrite sub_runs_kept by assumption.
  rewrite split_from_word; auto using lower_no_space.
  simpl. destruct s; [congruence | discriminate].
Qed.

(** C10.  The tokenizer treats the underscore as a word character: a
    query made of alphanumeric text, an underscore and alphanumeric text
    is one token, with the underscore kept; ["foo_bar"] gives the single
    token ["foo_bar"], not ["foo"] and ["bar"]. *)
Theorem clean_query_keeps_underscore (u v : string) :
  string_all Str.isalnum u = true ->
  string_all Str.isalnum v = true ->
  Str.clean_query (u ++ "_" ++ v) = [Str.lower u ++ "_" ++ Str.lower v]%string
  /\ Str.clean_query "foo_bar" = ["foo_bar"]
  /\ Str.clean_query "foo_bar" <> ["foo"; "bar"].
Proof.
  intros Hu Hv. split; [|split; [reflexivity | discriminate]].
  rewrite clean_query_word.
  - now rewrite !lower_app.
  - rewrite !string_all_app. simpl.
    rewrite (string_all_impl _ _ u alnum_is_word Hu).
    rewrite (string_all_impl _ _ v alnum_is_word Hv). reflexivity.
  - destruct u; discriminate.
Qed.

Lemma clean_query_keeps_underscore_witness :
  string_all Str.isalnum "Foo" = true /\
  string_all Str.isalnum "bar2" = true /\
  Str.clean_query "Foo_bar2" = ["foo_bar2"].
Proof.
  split; [reflexivity | split; [reflexivity |]].
  exact (proj1 (clean_query_keeps_underscore "Foo" "bar2" eq_refl eq_refl)).
Defined.

Lemma clean_query_spec_agree (b : bool) (s : string) :
  string_all (fun c => negb (Ascii.eqb c Str.underscore)) s = true ->
  Str.sub_runs Str.is_word b s = Str.sub_runs Str.isalnum b s.
Proof.
  revert b. induction s as [|c s IH]; intros b; simpl; [reflexivity|].
  intros H. apply andb_true_iff in H as [Hc Hs]. apply negb_true_iff in Hc.
  unfold Str.is_word. rewrite Hc, orb_false_r.
  destruct (Str.isalnum c), b; rewrite ?IH; auto.
Qed.

Lemma lower_char_word (c : ascii) :
  Str.is_word (Str.lower_char c) = Str.is_word c.
Proof. each_char c. Qed.

Lemma lower_char_idem (c : ascii) :
  Str.lower_char (Str.lower_char c) = Str.lower_char c.
Proof. each_char c. Qed.

(** Lower-casing the query first changes nothing: the tokens do not
    depend on the case of the letters. *)
Lemma clean_query_lower (q : string) :
  Str.clean_query (Str.lower q) = Str.clean_query q.
Proof.
  unfold Str.clean_query. f_equal. generalize false.
  induction q as [|c q IH]; intros b; simpl; [reflexivity|].
  rewrite lower_char_word. destruct (Str.is_word c); simpl.
  - now rewrite lower_char_idem, IH.
  - destruct b; simpl; now rewrite IH.
Qed.

(** C2.  On the query ["foo_bar"] the rule of the specification (every
    run of non-alphanumeric characters becomes a space) gives the tokens
    ["foo"] and ["bar"], the script gives the single token ["foo_bar"].
    On queries without an underscore the two agree; the tokens do not
    depend on letter case, and ["Hello, World!"] and ["hello world"]
    have the same tokens. *)
Theorem clean_query_differs_from_rule_at_underscore :
  Str.spec_tokenize "foo_bar" = ["foo"; "bar"]
  /\ Str.clean_query "foo_bar" = ["foo_bar"]
  /\ (forall q, string_all (fun c => negb (Ascii.eqb c Str.underscore)) q = true ->
                Str.clean_query q = Str.spec_tokenize q)
  /\ (forall q, Str.clean_query (Str.lower q) = Str.clean_query q)
  /\ Str.clean_query "Hello, World!" = Str.clean_query "hello world".
Proof.
  repeat split; try reflexivity.
  - intros q Hq. unfold Str.clean_query, Str.spec_tokenize.
    now rewrite clean_query_spec_agree.
  - apply clean_query_lower.
Qed.

(** ** The printed date *)

Lemma decimal_year_length (y : Z) :
  (1677 <= y <= 2262)%Z -> String.length (Cal.decimal y) = 4.
Proof.
  intros Hy.
  assert (H : forallb (fun k => (String.length (Cal.decimal (1677 + Z.of_nat k)) =? 4)%nat)
                      (seq 0 586) = true) by (vm_compute; reflexivity).
  rewrite forallb_forall in H.
  specialize (H (Z.to_nat (y - 1677))).
  rewrite Z2Nat.id in H by lia.
  replace (1677 + (y - 1677))%Z with y in H by lia.
  apply Nat.eqb_eq, H, in_seq. lia.
Qed.

Lemma pad2_length (d : Z) : (1 <= d <= 31)%Z -> String.length (Cal.pad2 d) = 2.
Proof.
  intros Hd.
  assert (H : forallb (fun k => (String.length (Cal.pad2 (1 + Z.of_nat k)) =? 2)%nat)
                      (seq 0 31) = true) by (vm_compute; reflexivity).
  rewrite forallb_forall in H.
  specialize (H (Z.to_nat (d - 1))).
  rewrite Z2Nat.id in H by lia.
  replace (1 + (d - 1))%Z with d in H by lia.
  apply Nat.eqb_eq, H, in_seq. lia.
Qed.

Lemma days_in_month_le (y m : Z) : (Cal.days_in_month y m <= 31)%Z.
Proof.
  unfold Cal.days_in_month.
  destruct m as [|p|p]; try lia.
  do 4 (try destruct p as [p|p|]); try lia; destruct (Cal.is_leap y); lia.
Qed.

Lemma in_bounds_year (d : date) :
  Cal.in_bounds d = true -> (1677 <= year d <= 2262)%Z.
Proof.
  destruct d as [y m dd]. unfold Cal.in_bounds, Cal.date_leb.
  cbn [year month day]. intros H.
  apply andb_true_iff in H as [H1 H2].
  apply orb_true_iff in H1, H2.
  split.
  - destruct H1 as [H1|H1]; [apply Z.ltb_lt in H1; lia|].
    apply andb_true_iff in H1 as [H1 _]. apply Z.eqb_eq in H1. lia.
  - destruct H2 as [H2|H2]; [apply Z.ltb_lt in H2; lia|].
    apply andb_true_iff in H2 as [H2 _]. apply Z.eqb_eq in H2. lia.
Qed.

(** A date inside the time-stamp range prints as the English month
    name, a space, two digits, a comma and a space, four digits. *)
Lemma strftime_shape (d : date) :
  Cal.valid d = true -> (1677 <= year d <= 2262)%Z ->
  exists name dd yyyy,
    Cal.strftime_BdY d = (name ++ " " ++ dd ++ ", " ++ yyyy)%string
    /\ In name ["January"; "February"; "March"; "April"; "May"; "June"; "July";
                "August"; "September"; "October"; "November"; "December"]
    /\ String.length dd = 2 /\ String.length yyyy = 4.
Proof.
  intros Hv Hb. unfold Cal.valid in Hv.
  repeat (apply andb_true_iff in Hv as [Hv ?]).
  repeat match goal with
         | H : (_ <=? _)%Z = true |- _ => apply Z.leb_le in H
         end.
  exists (Cal.month_name (month d)), (Cal.pad2 (day d)), (Cal.decimal (year d)).
  split; [reflexivity|]. split; [|split].
  - assert (Hm : (month d = 1 \/ month d = 2 \/ month d = 3 \/ month d = 4 \/
                  month d = 5 \/ month d = 6 \/ month d = 7 \/ month d = 8 \/
                  month d = 9 \/ month d = 10 \/ month d = 11 \/ month d = 12)%Z)
      by lia.
    repeat (destruct Hm as [Hm|Hm]; [rewrite Hm; simpl; tauto|]).
    rewrite Hm. simpl. tauto.
  - apply pad2_length. pose proof (days_in_month_le (year d) (month d)). lia.
  - now apply decimal_year_length.
Qed.

(** Text that parses is a real date inside the range. *)
Lemma to_datetime_strict_text (s : string) (d : date) :
  Cal.to_datetime_strict (CStr s) = Some d ->
  Cal.match_mdY s = Some d /\ Cal.valid d = true /\ Cal.in_bounds d = true.
Proof.
  simpl. destruct (Cal.match_mdY s) as [d'|]; [|discriminate].
  destruct (Cal.valid d' && Cal.in_bounds d') eqn:Hb; [|discriminate].
  intros H. inversion H; subst. apply andb_true_iff in Hb. tauto.
Qed.

Lemma in_bounds_at_year (d : date) (us : Z) :
  Cal.in_bounds_at d us = true -> (1677 <= year d <= 2262)%Z.
Proof.
  destruct d as [y m dd]. unfold Cal.in_bounds_at, Cal.date_eqb, Cal.date_leb.
  cbn [year month day]. intros H.
  apply andb_true_iff in H as [H1 H2].
  split.
  - destruct (Z.leb_spec 1677 y) as [Hy|Hy]; [assumption|exfalso].
    rewrite (proj2 (Z.eqb_neq y 1677)), (proj2 (Z.ltb_ge 1677 y)),
      (proj2 (Z.eqb_neq 1677 y)) in H1 by lia.
    discriminate H1.
  - destruct (Z.leb_spec y 2262) as [Hy|Hy]; [assumption|exfalso].
    rewrite (proj2 (Z.eqb_neq y 2262)), (proj2 (Z.ltb_ge y 2262)) in H2 by lia.
    discriminate H2.
Qed.

(** A cell that converts is a date of the years 1677 to 2262. *)
Lemma to_datetime_strict_year (c : cell) (d : date) :
  Cal.to_datetime_strict c = Some d -> (1677 <= year d <= 2262)%Z.
Proof.
  destruct c as [s|z|x|d' us]; simpl; try discriminate.
  - destruct (Cal.match_mdY s) as [d0|]; [|discriminate].
    destruct (Cal.valid d0 && Cal.in_bounds d0) eqn:Hb; [|discriminate].
    intros H. inversion H; subst. apply andb_true_iff in Hb.
    apply in_bounds_year. tauto.
  - destruct (Cal.in_bounds_at d' us) eqn:Hb; [|discriminate].
    intros H. inversion H; subst. eapply in_bounds_at_year; eauto.
Qed.

(** ** The script as a whole *)

Section Run.

Variable to_datetime : cell -> result timestamp.
Variable numeric_of_object : cell -> number.
Variable render : list flowable -> result unit.
Variable tie_rank : list pyfloat -> nat -> Z.

#[local] Abbreviation script := (run to_datetime numeric_of_object render tie_rank).
#[local] Abbreviation later := (later_tables to_datetime numeric_of_object tie_rank).
#[local] Abbreviation fails := (step_fails to_datetime numeric_of_object render tie_rank).

Lemma date_range_eq (df : frame) (w : world) :
  date_range df w =
  match iloc df 0 1, iloc df 1 1 with
  | OK c1, OK c2 =>
      match Cal.to_datetime_strict c1, Cal.to_datetime_strict c2 with
      | Some s, Some e => (OK (Cal.strftime_BdY s, Cal.strftime_BdY e), w)
      | _, _ => (OK (Unavailable, Unavailable),
                 mkWorld (stdout w ++ [date_error_line]) (pdf_file w))
      end
  | Raise e, _ => (Raise e, w)
  | OK _, Raise e => (Raise e, w)
  end.
Proof.
  unfold date_range, bind, lift, ret, print.
  destruct (iloc df 0 1) as [c1|e1]; [|reflexivity].
  destruct (iloc df 1 1) as [c2|e2]; [|reflexivity].
  destruct (Cal.to_datetime_strict c1), (Cal.to_datetime_strict c2); reflexivity.
Qed.

(** The console after the date range was read from the cells [c1], [c2]. *)
Lemma date_range_cells (df : frame) (c1 c2 : cell) (w : world) :
  iloc df 0 1 = OK c1 -> iloc df 1 1 = OK c2 ->
  date_range df w
  = (OK (formatted_dates c1 c2),
     mkWorld (stdout w ++ (if dates_unavailable c1 c2 then [date_error_line] else []))
             (pdf_file w)).
Proof.
  intros H1 H2. rewrite date_range_eq, H1, H2.
  unfold formatted_dates, dates_unavailable.
  destruct (Cal.to_datetime_strict c1), (Cal.to_datetime_strict c2); try reflexivity.
  destruct w as [out pdf]. simpl. now rewrite app_nil_r.
Qed.

Lemma iloc_raises (df : frame) (i j : nat) (e : exn) :
  iloc df i j = Raise e -> e = IndexError.
Proof. unfold iloc. destruct (_ && _); congruence. Qed.

Lemma run_eq (files : inputs) (w : world) :
  script files w =
  match categories_xls files with
  | Raise e => (Raise e, w)
  | OK df =>
      match date_range df w with
      | (Raise e, w1) => (Raise e, w1)
      | (OK dates, w1) =>
          match later files with
          | Raise e => (Raise e, w1)
          | OK (questions, search, user) =>
              let story :=
                story_of dates ([CStr "Categories"; CStr "Views"] :: category_rows df)
                         questions search user in
              match render story with
              | OK _ => (OK tt, mkWorld (stdout w1 ++ [success_line]) (Some story))
              | Raise e => (Raise e, w1)
              end
          end
      end
  end.
Proof.
  unfold run, later_tables, bind, lift, build, print, rbind.
  destruct (categories_xls files) as [df|e]; [|reflexivity].
  destruct (date_range df w) as [[dates|e] w1]; [|reflexivity].
  destruct (questions_xls files) as [qdf|e]; [|reflexivity].
  destruct (questions_data to_datetime qdf) as [q|e]; [|reflexivity].
  destruct (searches_xls files) as [sdf|e]; [|reflexivity].
  destruct (search_data sdf) as [s|e]; [|reflexivity].
  destruct (users_xls files) as [udf|e]; [|reflexivity].
  destruct (user_data numeric_of_object tie_rank udf) as [u|e]; [|reflexivity].
  cbv zeta. destruct (render _) as [[]|e]; reflexivity.
Qed.

(** The run in terms of its inputs: the frame, the two cells, the later
    tables and the layout. *)
Lemma run_cases (files : inputs) (w : world) :
  script files w =
  match categories_xls files with
  | Raise e => (Raise e, w)
  | OK df =>
      match iloc df 0 1, iloc df 1 1 with
      | OK c1, OK c2 =>
          let w1 := mkWorld (stdout w ++ (if dates_unavailable c1 c2
                                          then [date_error_line] else []))
                            (pdf_file w) in
          match later files with
          | Raise e => (Raise e, w1)
          | OK tables =>
              match render (report df c1 c2 tables) with
              | OK _ => (OK tt, mkWorld (stdout w1 ++ [success_line])
                                        (Some (report df c1 c2 tables)))
              | Raise e => (Raise e, w1)
              end
          end
      | Raise e, _ => (Raise e, w)
      | OK _, Raise e => (Raise e, w)
      end
  end.
Proof.
  rewrite run_eq.
  destruct (categories_xls files) as [df|e]; [|reflexivity].
  destruct (iloc df 0 1) as [c1|e1] eqn:H1;
    [|rewrite date_range_eq, H1; reflexivity].
  destruct (iloc df 1 1) as [c2|e2] eqn:H2;
    [|rewrite date_range_eq, H1, H2; reflexivity].
  rewrite (date_range_cells df c1 c2 w H1 H2).
  destruct (later files) as [[[q s] u]|e]; reflexivity.
Qed.

(** The date range never changes the file, and it raises only when a
    cell position is outside the frame. *)
Lemma date_range_pdf (df : frame) (w : world) :
  pdf_file (snd (date_range df w)) = pdf_file w.
Proof.
  rewrite date_range_eq.
  destruct (iloc df 0 1), (iloc df 1 1); try reflexivity.
  destruct (Cal.to_datetime_strict a), (Cal.to_datetime_strict a0); reflexivity.
Qed.

Lemma later_tables_fails (files : inputs) (e : exn) :
  later files = Raise e -> fails files.
Proof.
  unfold later_tables, rbind.
  destruct (questions_xls files) as [qdf|e1] eqn:Hq;
    [|intros _; eapply fail_read_questions; eauto].
  destruct (questions_data to_datetime qdf) as [q|e2] eqn:Hqd;
    [|intros _; eapply fail_questions_data; eauto].
  destruct (searches_xls files) as [sdf|e3] eqn:Hs;
    [|intros _; eapply fail_read_searches; eauto].
  destruct (search_data sdf) as [s|e4] eqn:Hsd;
    [|intros _; eapply fail_search_data; eauto].
  destruct (users_xls files) as [udf|e5] eqn:Hu;
    [|intros _; eapply fail_read_users; eauto].
  destruct (user_data numeric_of_object tie_rank udf) as [u|e6] eqn:Hud;
    [discriminate | intros _; eapply fail_user_data; eauto].
Qed.

Lemma later_tables_ok (files : inputs) (t : table * table * table) :
  later files = OK t ->
  forall e,
    questions_xls files <> Raise e /\ searches_xls files <> Raise e /\
    users_xls files <> Raise e /\
    (forall df, questions_xls files = OK df -> questions_data to_datetime df <> Raise e) /\
    (forall df, searches_xls files = OK df -> search_data df <> Raise e) /\
    (forall df, users_xls files = OK df ->
                user_data numeric_of_object tie_rank df <> Raise e).
Proof.
  unfold later_tables, rbind. intros H e.
  destruct (questions_xls files) as [qdf|e1]; [|discriminate].
  destruct (questions_data to_datetime qdf) as [q|e2] eqn:Hqd; [|discriminate].
  destruct (searches_xls files) as [sdf|e3]; [|discriminate].
  destruct (search_data sdf) as [s|e4] eqn:Hsd; [|discriminate].
  destruct (users_xls files) as [udf|e5]; [|discriminate].
  destruct (user_data numeric_of_object tie_rank udf) as [u|e6] eqn:Hud; [|discriminate].
  repeat split; try discriminate; intros df Hdf; inversion Hdf; subst; congruence.
Qed.

Lemma later_tables_inv (files : inputs) (q s u : table) :
  later files = OK (q, s, u) ->
  exists qdf sdf udf,
    questions_xls files = OK qdf /\ questions_data to_datetime qdf = OK q
    /\ searches_xls files = OK sdf /\ search_data sdf = OK s
    /\ users_xls files = OK udf /\ user_data numeric_of_object tie_rank udf = OK u.
Proof.
  unfold later_tables, rbind.
  destruct (questions_xls files) as [qdf|e1]; [|discriminate].
  destruct (questions_data to_datetime qdf) as [q'|e2] eqn:Hqd; [|discriminate].
  destruct (searches_xls files) as [sdf|e3]; [|discriminate].
  destruct (search_data sdf) as [s'|e4] eqn:Hsd; [|discriminate].
  destruct (users_xls files) as [udf|e5]; [|discriminate].
  destruct (user_data numeric_of_object tie_rank udf) as [u'|e6] eqn:Hud; [|discriminate].
  intros H. inversion H; subst. exists qdf, sdf, udf. repeat split; assumption.
Qed.

Lemma report_date_line (df : frame) (c1 c2 : cell) (tables : table * table * table) :
  nth_error (report df c1 c2 tables) 1 = Some (date_paragraph (formatted_dates c1 c2)).
Proof. destruct tables as [[q s] u]. reflexivity. Qed.

(** C1.  Let the categories file be read.  When both date cells exist
    and are dates in the strict month/day/year format, the date range is
    the two dates, each printed as month name, two-digit day, comma,
    year, and the date line of the report joins them by "to"; nothing is
    printed.  When both cells exist and either is empty or is not such a
    date, both printed values are "Unavailable", the error line is
    printed and nothing is raised.  When a cell position does not exist
    in the sheet, the run aborts with [IndexError] and the file is left
    as it was.  An empty cell is not a date, ["03/01/2024"] is the first
    of March 2024, which prints as ["March 01, 2024"].  In both cases
    with cells the report, whose second element is the date line, is
    written exactly when the later steps complete and the layout
    succeeds; when a later step or the layout raises, the run aborts
    and the file is left as it was. *)
Theorem date_range_rendered (files : inputs) (df : frame) (w : world) :
  categories_xls files = OK df ->
  (forall c1 c2 s e,
      iloc df 0 1 = OK c1 -> iloc df 1 1 = OK c2 ->
      Cal.to_datetime_strict c1 = Some s ->
      Cal.to_datetime_strict c2 = Some e ->
      date_range df w = (OK (Cal.strftime_BdY s, Cal.strftime_BdY e), w)
      /\ formatted_dates c1 c2 = (Cal.strftime_BdY s, Cal.strftime_BdY e)
      /\ date_paragraph (Cal.strftime_BdY s, Cal.strftime_BdY e)
         = Paragraph ("Data from " ++ Cal.strftime_BdY s ++ " to "
                                   ++ Cal.strftime_BdY e) DateStyle)
  /\ (forall c1 c2,
      iloc df 0 1 = OK c1 -> iloc df 1 1 = OK c2 ->
      Cal.to_datetime_strict c1 = NaT \/ Cal.to_datetime_strict c2 = NaT ->
      date_range df w
      = (OK (Unavailable, Unavailable),
         mkWorld (stdout w ++ [date_error_line]) (pdf_file w))
      /\ formatted_dates c1 c2 = (Unavailable, Unavailable)
      /\ date_paragraph (Unavailable, Unavailable)
         = Paragraph "Data from Unavailable to Unavailable" DateStyle)
  /\ ((exists e, iloc df 0 1 = Raise e) \/ (exists e, iloc df 1 1 = Raise e) ->
      script files w = (Raise IndexError, w))
  /\ Cal.to_datetime_strict (CFloat NaN) = NaT
  /\ Cal.to_datetime_strict (CStr "03/01/2024") = Some (mkDate 2024 3 1)
  /\ Cal.strftime_BdY (mkDate 2024 3 1) = "March 01, 2024"
  /\ (forall c d,
        Cal.to_datetime_strict c = Some d -> Cal.valid d = true ->
        exists name dd yyyy,
          Cal.strftime_BdY d = (name ++ " " ++ dd ++ ", " ++ yyyy)%string
          /\ In name ["January"; "February"; "March"; "April"; "May"; "June";
                      "July"; "August"; "September"; "October"; "November";
                      "December"]
          /\ String.length dd = 2 /\ String.length yyyy = 4)
  /\ (forall c1 c2 tables,
        iloc df 0 1 = OK c1 -> iloc df 1 1 = OK c2 ->
        later files = OK tables ->
        nth_error (report df c1 c2 tables) 1
        = Some (date_paragraph (formatted_dates c1 c2))
        /\ (render (report df c1 c2 tables) = OK tt ->
            fst (script files w) = OK tt
            /\ pdf_file (snd (script files w)) = Some (report df c1 c2 tables))
        /\ (forall e, render (report df c1 c2 tables) = Raise e ->
            fst (script files w) = Raise e
            /\ pdf_file (snd (script files w)) = pdf_file w))
  /\ (forall c1 c2 e,
        iloc df 0 1 = OK c1 -> iloc df 1 1 = OK c2 ->
        later files = Raise e ->
        fst (script files w) = Raise e
        /\ pdf_file (snd (script files w)) = pdf_file w).
Proof.
  intros Hdf. repeat apply conj.
  - intros c1 c2 s e H1 H2 Hs He. rewrite date_range_eq, H1, H2.
    unfold formatted_dates. rewrite Hs, He. repeat split.
  - intros c1 c2 H1 H2 H. rewrite date_range_eq, H1, H2. unfold formatted_dates.
    destruct H as [H|H]; rewrite H; [repeat split|].
    destruct (Cal.to_datetime_strict c1); repeat split.
  - intros H. rewrite run_cases, Hdf.
    destruct H as [[e H]|[e H]].
    + rewrite H. now rewrite (iloc_raises _ _ _ _ H).
    + rewrite H. rewrite (iloc_raises _ _ _ _ H).
      destruct (iloc df 0 1) as [c1|e1] eqn:H1; [reflexivity|].
      now rewrite (iloc_raises _ _ _ _ H1).
  - reflexivity.
  - reflexivity.
  - reflexivity.
  - intros c d Hc Hv. apply strftime_shape; [assumption|].
    eapply to_datetime_strict_year; eauto.
  - intros c1 c2 tables H1 H2 Hl. rewrite run_cases, Hdf, H1, H2, Hl. cbv zeta.
    split; [apply report_date_line|]. split.
    + intros Hr. rewrite Hr. split; reflexivity.
    + intros e Hr. rewrite Hr. split; reflexivity.
  - intros c1 c2 e H1 H2 Hl. rewrite run_cases, Hdf, H1, H2, Hl.
    split; reflexivity.
Qed.

(** C7.  A numeric serial date in the two date cells never yields a
    formatted range: the strict parse turns every number into NaT, so
    both values are "Unavailable", although the helper of lines 11-24,
    which the script never calls, converts the same serial numbers. *)
Theorem serial_date_cells_unavailable (w : world) :
  (forall z, Cal.to_datetime_strict (CInt z) = NaT)
  /\ (forall x, Cal.to_datetime_strict (CFloat x) = NaT)
  /\ date_range (Sample.categories (CInt 45000) (CInt 45030)) w
     = (OK (Unavailable, Unavailable),
        mkWorld (stdout w ++ [date_error_line]) (pdf_file w))
  /\ Serial.excel_date_to_datetime (CInt 45000) = OK (Some (mkDate 2023 3 15))
  /\ Serial.excel_date_to_datetime (CInt 45030) = OK (Some (mkDate 2023 4 14)).
Proof. repeat split. Qed.


(** The two outcomes of a run. *)
Lemma run_outcome (files : inputs) (w : world) :
  match script files w with
  | (OK _, w') => ~ fails files /\ exists story, pdf_file w' = Some story
  | (Raise _, w') => fails files /\ pdf_file w' = pdf_file w
  end.
Proof.
  rewrite run_cases.
  destruct (categories_xls files) as [df|e] eqn:Hc.
  2:{ split; [eapply fail_read_categories; eauto | reflexivity]. }
  destruct (iloc df 0 1) as [c1|e1] eqn:H1.
  2:{ split; [eapply fail_start_cell; eauto | reflexivity]. }
  destruct (iloc df 1 1) as [c2|e2] eqn:H2.
  2:{ split; [eapply fail_end_cell; eauto | reflexivity]. }
  cbv zeta.
  destruct (later files) as [tables|e] eqn:Hl.
  2:{ split; [eapply later_tables_fails; eauto | reflexivity]. }
  destruct (render (report df c1 c2 tables)) as [[]|e] eqn:Hr.
  2:{ split; [eapply fail_build; eauto | reflexivity]. }
  split; [|eexists; reflexivity].
  intros Hf. pose proof (later_tables_ok _ _ Hl) as Hok.
  destruct Hf as [e He|df' e Hdf He|df' e Hdf He|e He|df' e Hdf He
                  |e He|df' e Hdf He|e He|df' e Hdf He
                  |df' c1' c2' tables' e Hdf Hc1 Hc2 Hl' He];
    try congruence;
    try (rewrite Hc in Hdf; inversion Hdf; subst; congruence);
    destruct (Hok e) as (A & B & C & D & E & F);
    first [ congruence | exact (D _ Hdf He) | exact (E _ Hdf He)
          | exact (F _ Hdf He) ].
Qed.

Lemma run_aborts (files : inputs) (w : world) :
  fails files ->
  exists e w', script files w = (Raise e, w') /\ pdf_file w' = pdf_file w.
Proof.
  intros Hf. pose proof (run_outcome files w) as H.
  destruct (script files w) as [[[]|e] w'].
  - destruct H as [Hnf _]. contradiction.
  - destruct H as [_ Hp]. eauto.
Qed.

(** C6.  If any read, indexing, parse, selection or layout step fails,
    the run ends with an exception and the output file is left as it
    was; if no step fails, the run completes and the file holds the
    report.  So the file is written only when every step completed. *)
Theorem all_or_nothing (files : inputs) (w : world) :
  (fails files ->
   exists e w', script files w = (Raise e, w') /\ pdf_file w' = pdf_file w)
  /\ (~ fails files ->
      exists w' story, script files w = (OK tt, w') /\ pdf_file w' = Some story)
  /\ (pdf_file (snd (script files w)) <> pdf_file w -> ~ fails files).
Proof.
  pose proof (run_outcome files w) as H.
  destruct (script files w) as [[[]|e] w'] eqn:Hr; simpl.
  - destruct H as [Hnf [story Hs]]. repeat split.
    + intros Hf. contradiction.
    + intros _. eauto.
    + intros _. assumption.
  - destruct H as [Hf Hp]. repeat split.
    + intros _. eauto.
    + intros Hnf. contradiction.
    + intros Hne. contradiction.
Qed.


(** ** Results of [rmapM] *)

Lemma rmapM_ok {A B} (f : A -> result B) (l : list A) (ys : list B) :
  rmapM f l = OK ys -> Forall2 (fun x y => f x = OK y) l ys.
Proof.
  revert ys. induction l as [|x l IH]; simpl; intros ys H.
  - inversion H. constructor.
  - destruct (f x) as [y|e] eqn:Hx; simpl in H; [|discriminate].
    destruct (rmapM f l) as [ys'|e]; simpl in H; [|discriminate].
    inversion H; subst. constructor; auto.
Qed.

Lemma rmapM_all {A B} (f : A -> result B) (g : A -> B) (l : list A) :
  Forall (fun x => f x = OK (g x)) l -> rmapM f l = OK (map g l).
Proof.
  induction 1 as [|x l Hx _ IH]; simpl; [reflexivity|].
  now rewrite Hx, IH.
Qed.

Lemma rmapM_raises {A B} (f : A -> result B) (l : list A) :
  Exists (fun x => exists e, f x = Raise e) l ->
  exists e x, rmapM f l = Raise e /\ In x l /\ f x = Raise e.
Proof.
  induction l as [|x l IH]; intros H; [inversion H|].
  simpl. destruct (f x) as [y|e] eqn:Hx.
  - inversion H as [? ? [e He]|? ? Ht]; subst; [congruence|].
    destruct (IH Ht) as (e & x' & Hr & Hin & Hf).
    exists e, x'. rewrite Hr. simpl. auto.
  - exists e, x. simpl. auto.
Qed.

(** ** Column counts *)


Lemma category_rows_width (df : frame) (c : cell) :
  iloc df 0 1 = OK c ->
  Forall (fun r => List.length r = 2%nat) (category_rows df).
Proof.
  unfold iloc. destruct (_ && _) eqn:Hb; [|discriminate]. intros _.
  apply andb_true_iff in Hb as [_ Hc]. apply Nat.ltb_lt in Hc.
  apply Forall_forall. intros r Hr.
  unfold category_rows, iloc_block, values in Hr.
  apply in_map_iff in Hr as (i & <- & _).
  rewrite length_map, length_seq. lia.
Qed.

Lemma questions_data_width (df : frame) (t : table) :
  questions_data to_datetime df = OK t ->
  exists data, t = [CStr "Article"; CStr "Views"; CStr "Last Updated"] :: data
               /\ Forall (fun r => List.length r = 3%nat) data.
Proof.
  unfold questions_data, rbind.
  destruct (iloc_cols df 4 14 [1; 3; 8]) as [rows|e]; [|discriminate].
  destruct (rmapM (questions_row to_datetime) rows) as [data|e] eqn:Hm; [|discriminate].
  intros H. inversion H; subst. exists data. split; [reflexivity|].
  apply rmapM_ok in Hm. induction Hm as [|row out rows data Hrow _ IH]; constructor; auto.
  unfold questions_row, rbind in Hrow.
  destruct (getitem row 0), (getitem row 1), (getitem row 2); try discriminate.
  destruct (to_datetime a1) as [ts|]; [|discriminate].
  destruct (strftime_ts ts); [|discriminate].
  inversion Hrow. reflexivity.
Qed.

Lemma search_data_width (df : frame) (t : table) :
  search_data df = OK t ->
  exists data, t = [CStr "Query"; CStr "Searches"] :: data
               /\ Forall (fun r => List.length r = 2%nat) data.
Proof.
  unfold search_data, rbind.
  destruct (column df 1) as [queries|e]; [|discriminate].
  destruct (rmapM clean_query_cell queries) as [cleaned|e]; [|discriminate].
  intros H. inversion H; subst. unfold search_table. eexists. split; [reflexivity|].
  apply Forall_forall. intros r Hr. apply in_map_iff in Hr as (wc & <- & _).
  reflexivity.
Qed.

Lemma user_data_width (df : frame) (t : table) :
  user_data numeric_of_object tie_rank df = OK t ->
  exists data, t = [CStr "User"; CStr "Views"] :: data
               /\ Forall (fun r => List.length r = 2%nat) data.
Proof.
  unfold user_data, rbind.
  destruct (column df 3) as [col|e]; [|discriminate].
  destruct (rmapM user_row _) as [data|e] eqn:Hm; [|discriminate].
  intros H. inversion H; subst. exists data. split; [reflexivity|].
  apply rmapM_ok in Hm. induction Hm as [|r out rs data Hrow _ IH]; constructor; auto.
  unfold user_row, rbind in Hrow.
  destruct (int_of_float (snd r)); [|discriminate].
  inversion Hrow. reflexivity.
Qed.

(** C5.  In a report that was written, each of the four tables
    (categories, articles, searches, users) is a header row followed by
    data rows of the header's column count: 2, 3, 2 and 2. *)
Theorem tables_rectangular (files : inputs) (w w' : world) (story : list flowable) :
  script files w = (OK tt, w') ->
  pdf_file w' = Some story ->
  (exists dates category questions search user,
      story = story_of dates
                ([CStr "Categories"; CStr "Views"] :: category)
                ([CStr "Article"; CStr "Views"; CStr "Last Updated"] :: questions)
                ([CStr "Query"; CStr "Searches"] :: search)
                ([CStr "User"; CStr "Views"] :: user)
      /\ Forall (fun r => List.length r = 2%nat) category
      /\ Forall (fun r => List.length r = 3%nat) questions
      /\ Forall (fun r => List.length r = 2%nat) search
      /\ Forall (fun r => List.length r = 2%nat) user)
  /\ (forall data widths,
        In (Table data widths) story ->
        exists header rows,
          data = header :: rows
          /\ Forall (fun r => List.length r = List.length header) rows).
Proof.
  intros Hrun Hpdf.
  assert (Hex : exists dates category questions search user,
      story = story_of dates
                ([CStr "Categories"; CStr "Views"] :: category)
                ([CStr "Article"; CStr "Views"; CStr "Last Updated"] :: questions)
                ([CStr "Query"; CStr "Searches"] :: search)
                ([CStr "User"; CStr "Views"] :: user)
      /\ Forall (fun r => List.length r = 2%nat) category
      /\ Forall (fun r => List.length r = 3%nat) questions
      /\ Forall (fun r => List.length r = 2%nat) search
      /\ Forall (fun r => List.length r = 2%nat) user).
  { rewrite run_cases in Hrun.
    destruct (categories_xls files) as [df|e]; [|discriminate].
    destruct (iloc df 0 1) as [c1|e1] eqn:H1; [|discriminate].
    destruct (iloc df 1 1) as [c2|e2] eqn:H2; [|discriminate].
    pose proof (category_rows_width df c1 H1) as Hcw.
    cbv zeta in Hrun.
    destruct (later files) as [[[q sr] u]|e] eqn:Hl; [|discriminate].
    destruct (render _) as [[]|e]; [|discriminate].
    apply later_tables_inv in Hl as (qdf & sdf & udf & _ & Hq & _ & Hs & _ & Hu).
    apply questions_data_width in Hq as (qd & -> & Hqw).
    apply search_data_width in Hs as (sd & -> & Hsw).
    apply user_data_width in Hu as (ud & -> & Huw).
    inversion Hrun; subst; simpl in Hpdf; inversion Hpdf; subst.
    exists (formatted_dates c1 c2), (category_rows df), qd, sd, ud.
    repeat split; assumption. }
  split; [exact Hex|].
  destruct Hex as (dates & c & q & s & u & -> & Hc & Hq & Hs & Hu).
  intros data widths Hin. simpl in Hin.
  repeat (destruct Hin as [Hin|Hin]; [try discriminate Hin|]); try contradiction;
    inversion Hin; subst; eexists; eexists; (split; [reflexivity|]); assumption.
Qed.

(** ** The article table *)



End Run.

(** ** Stable sorting *)

Section SelectionFacts.

Variable A : Type.
Variable gtb : A -> A -> bool.
(** The order of the input, and the elements the comparison is used on. *)
Variable ord : A -> A -> Prop.
Variable dom : A -> Prop.

Hypothesis gtb_trans :
  forall a b c, dom a -> dom b -> dom c ->
                gtb a b = true -> gtb b c = true -> gtb a c = true.
Hypothesis gtb_neg_trans :
  forall a b c, dom a -> dom b -> dom c ->
                gtb a b = false -> gtb b c = false -> gtb a c = false.

Lemma insert_desc_perm (x : A) (l : list A) :
  Permutation (insert_desc gtb x l) (x :: l).
Proof.
  induction l as [|y l IH]; simpl; [reflexivity|].
  destruct (gtb y x); [|reflexivity].
  rewrite IH. apply perm_swap.
Qed.

Lemma sort_desc_perm (l : list A) : Permutation (sort_desc gtb l) l.
Proof.
  induction l as [|x l IH]; simpl; [reflexivity|].
  rewrite insert_desc_perm. now constructor.
Qed.

Lemma insert_desc_sorted (x : A) (l : list A) :
  dom x -> Forall dom l -> Forall (ord x) l ->
  StronglySorted (sorted_rel gtb ord) l ->
  StronglySorted (sorted_rel gtb ord) (insert_desc gtb x l).
Proof.
  intros Hx. induction l as [|y l IH]; intros Hdom Hord Hs; simpl.
  - repeat constructor.
  - inversion Hdom as [|? ? Hy Hdom']; subst.
    inversion Hord as [|? ? Hxy Hord']; subst.
    inversion Hs as [|? ? Hs' Hyl]; subst.
    destruct (gtb y x) eqn:Hg.
    + constructor; [now apply IH|].
      eapply Permutation_Forall; [symmetry; apply insert_desc_perm|].
      constructor; [now left | assumption].
    + constructor; [assumption|]. constructor; [right; auto|].
      rewrite Forall_forall in *. intros z Hz.
      right. split; [|now apply Hord'].
      destruct (Hyl z Hz) as [Hyz|[Hzy _]].
      * destruct (gtb z x) eqn:Hzx; [|reflexivity].
        rewrite (gtb_trans y z x) in Hg; auto.
      * apply (gtb_neg_trans z y x); auto.
Qed.

Lemma sort_desc_sorted (l : list A) :
  Forall dom l -> StronglySorted ord l ->
  StronglySorted (sorted_rel gtb ord) (sort_desc gtb l).
Proof.
  induction l as [|x l IH]; intros Hdom Hs; simpl; [constructor|].
  inversion Hdom; subst. inversion Hs; subst.
  apply insert_desc_sorted; auto.
  - eapply Permutation_Forall; [symmetry; apply sort_desc_perm | assumption].
  - eapply Permutation_Forall; [symmetry; apply sort_desc_perm | assumption].
Qed.

End SelectionFacts.

Lemma in_firstn {A} (n : nat) (l : list A) (x : A) : In x (firstn n l) -> In x l.
Proof.
  intros H. rewrite <- (firstn_skipn n l). apply in_or_app. now left.
Qed.

Lemma in_skipn {A} (n : nat) (l : list A) (x : A) : In x (skipn n l) -> In x l.
Proof.
  intros H. rewrite <- (firstn_skipn n l). apply in_or_app. now right.
Qed.

(** What [firstn] leaves out of a sorted list comes after all it keeps. *)
Lemma firstn_sorted_cut {A} (R : A -> A -> Prop) (n : nat) (l : list A) :
  StronglySorted R l ->
  StronglySorted R (firstn n l)
  /\ (forall x, In x (skipn n l) ->
                List.length (firstn n l) = n /\ Forall (fun t => R t x) (firstn n l)).
Proof.
  revert n. induction l as [|y l IH]; intros n Hs.
  - destruct n; simpl; split; try constructor; contradiction.
  - destruct n as [|n]; simpl.
    + split; [constructor|]. intros x _. split; [reflexivity | constructor].
    + inversion Hs as [|? ? Hs' Hy]; subst.
      destruct (IH n Hs') as [Hf Hk]. split.
      * constructor; [assumption|].
        rewrite Forall_forall in *. intros z Hz. apply Hy.
        eapply in_firstn; eauto.
      * intros x Hx. destruct (Hk x Hx) as [Hlen Hall]. split; [now rewrite Hlen|].
        constructor; [|assumption].
        rewrite Forall_forall in Hy. apply Hy. eapply in_skipn; eauto.
Qed.

(** ** The counter *)

Lemma counter_incr_get (w w' : string) (c : list (string * Z)) :
  counter_get (counter_incr w c) w'
  = (counter_get c w' + (if String.eqb w w' then 1 else 0))%Z.
Proof.
  induction c as [|[k n] c IH]; simpl.
  - destruct (String.eqb w w'); reflexivity.
  - destruct (String.eqb k w) eqn:Hkw; simpl.
    + apply String.eqb_eq in Hkw. subst k.
      destruct (String.eqb w w'); lia.
    + destruct (String.eqb k w') eqn:Hkw'; [|exact IH].
      apply String.eqb_eq in Hkw'. subst k. rewrite String.eqb_sym, Hkw. lia.
Qed.

Lemma counter_incr_keys (w : string) (c : list (string * Z)) :
  map fst (counter_incr w c)
  = if in_dec string_dec w (map fst c) then map fst c else map fst c ++ [w].
Proof.
  induction c as [|[k n] c IH]; simpl; [reflexivity|].
  destruct (String.eqb k w) eqn:Hkw; simpl.
  - apply String.eqb_eq in Hkw. subst k.
    destruct (string_dec w w); [|congruence]. reflexivity.
  - apply String.eqb_neq in Hkw. rewrite IH.
    destruct (string_dec k w); [congruence|].
    destruct (in_dec string_dec w (map fst c)); reflexivity.
Qed.

Lemma counter_get_in (c : list (string * Z)) (k : string) (n : Z) :
  NoDup (map fst c) -> In (k, n) c -> counter_get c k = n.
Proof.
  induction c as [|[k' n'] c IH]; simpl; intros Hnd Hin; [contradiction|].
  inversion Hnd as [|? ? Hni Hnd']; subst.
  destruct Hin as [Heq|Hin].
  - inversion Heq; subst. now rewrite String.eqb_refl.
  - destruct (String.eqb k' k) eqn:Hk; [|auto].
    apply String.eqb_eq in Hk. subst k'. exfalso. apply Hni.
    apply in_map_iff. exists (k, n). auto.
Qed.

Lemma Counter_snoc (ws : list string) (w : string) :
  Counter (ws ++ [w]) = counter_incr w (Counter ws).
Proof. unfold Counter. now rewrite fold_left_app. Qed.

Lemma occurrences_snoc (ws : list string) (w w' : string) :
  occurrences (ws ++ [w]) w'
  = (occurrences ws w' + (if String.eqb w w' then 1 else 0))%Z.
Proof.
  unfold occurrences. rewrite count_occ_app. simpl.
  destruct (string_dec w w') as [->|Hne].
  - rewrite String.eqb_refl. lia.
  - apply String.eqb_neq in Hne. rewrite Hne. lia.
Qed.

Lemma first_index_app_in (ws l : list string) (a : string) :
  In a ws -> first_index (ws ++ l) a = first_index ws a.
Proof.
  induction ws as [|x ws IH]; simpl; [contradiction|].
  intros [->|Hin].
  - now rewrite String.eqb_refl.
  - destruct (String.eqb x a); [reflexivity|]. now rewrite IH.
Qed.

Lemma first_index_lt (ws : list string) (a : string) :
  In a ws -> first_index ws a < List.length ws.
Proof.
  induction ws as [|x ws IH]; simpl; [contradiction|].
  intros [->|Hin].
  - rewrite String.eqb_refl. lia.
  - destruct (String.eqb x a); [lia|]. specialize (IH Hin). lia.
Qed.

Lemma first_index_new (ws : list string) (a : string) :
  ~ In a ws -> first_index (ws ++ [a]) a = List.length ws.
Proof.
  induction ws as [|x ws IH]; simpl; intros Hni.
  - now rewrite String.eqb_refl.
  - destruct (String.eqb x a) eqn:Hx.
    + apply String.eqb_eq in Hx. subst. exfalso. auto.
    + rewrite IH; auto.
Qed.

Lemma StronglySorted_snoc {A} (R : A -> A -> Prop) (l : list A) (x : A) :
  StronglySorted R l -> Forall (fun a => R a x) l -> StronglySorted R (l ++ [x]).
Proof.
  induction 1 as [|a l Hs IH Ha]; intros Hx; simpl.
  - repeat constructor.
  - inversion Hx; subst. constructor; [auto|].
    apply Forall_app. split; [assumption | repeat constructor; assumption].
Qed.

Lemma StronglySorted_impl_in {A} (R R' : A -> A -> Prop) (l : list A) :
  (forall a b, In a l -> In b l -> R a b -> R' a b) ->
  StronglySorted R l -> StronglySorted R' l.
Proof.
  intros Himp Hs. induction Hs as [|a l Hs IH Ha]; constructor.
  - apply IH. intros x y Hx Hy. apply Himp; now right.
  - rewrite Forall_forall in *. intros y Hy. apply Himp; simpl; auto.
Qed.

Lemma StronglySorted_map {A B} (f : A -> B) (R : B -> B -> Prop) (l : list A) :
  StronglySorted (fun a b => R (f a) (f b)) l <-> StronglySorted R (map f l).
Proof.
  induction l as [|a l IH]; simpl.
  - split; constructor.
  - split; intros H; inversion H; subst; constructor; try (now apply IH).
    + now apply Forall_map.
    + now apply Forall_map.
Qed.

(** The keys of a counter are the distinct words in the order of their
    first occurrence, each with the number of its occurrences. *)
Lemma Counter_spec (ws : list string) :
  NoDup (map fst (Counter ws))
  /\ (forall w, In w (map fst (Counter ws)) <-> In w ws)
  /\ (forall w, counter_get (Counter ws) w = occurrences ws w)
  /\ StronglySorted (fun a b => first_index ws a < first_index ws b)
                    (map fst (Counter ws)).
Proof.
  induction ws as [|w ws IH] using rev_ind.
  - simpl. repeat split; try constructor; try contradiction.
  - destruct IH as (Hnd & Hkeys & Hget & Hsorted).
    rewrite Counter_snoc, counter_incr_keys.
    destruct (in_dec string_dec w (map fst (Counter ws))) as [Hin|Hni].
    + repeat split.
      * assumption.
      * intros H. apply in_or_app. left. now apply Hkeys.
      * intros H. apply in_app_or in H as [H|[<-|[]]]; [now apply Hkeys | assumption].
      * intros w'. now rewrite counter_incr_get, occurrences_snoc, Hget.
      * eapply StronglySorted_impl_in; [|exact Hsorted].
        intros a b Ha Hb Hab. apply Hkeys in Ha, Hb.
        now rewrite !first_index_app_in.
    + assert (Hnw : ~ In w ws) by (intros H; apply Hni, Hkeys, H).
      repeat split.
      * apply NoDup_app; [assumption | repeat constructor; auto |].
        intros a Ha [<-|[]]. contradiction.
      * intros H. apply in_app_or in H as [H|[<-|[]]];
          apply in_or_app; [left; now apply Hkeys | right; now left].
      * intros H. apply in_app_or in H as [H|[<-|[]]];
          apply in_or_app; [left; now apply Hkeys | right; now left].
      * intros w'. now rewrite counter_incr_get, occurrences_snoc, Hget.
      * apply StronglySorted_snoc.
        -- eapply StronglySorted_impl_in; [|exact Hsorted].
           intros a b Ha Hb Hab. apply Hkeys in Ha, Hb.
           now rewrite !first_index_app_in.
        -- apply Forall_forall. intros a Ha. apply Hkeys in Ha.
           rewrite first_index_app_in, first_index_new by assumption.
           now apply first_index_lt.
Qed.

Lemma Counter_items (ws : list string) (wc : string * Z) :
  In wc (Counter ws) -> In (fst wc) ws /\ snd wc = occurrences ws (fst wc).
Proof.
  destruct (Counter_spec ws) as (Hnd & Hkeys & Hget & _).
  intros Hin. split.
  - apply Hkeys. now apply in_map.
  - rewrite <- Hget. symmetry. apply counter_get_in; [assumption|].
    now destruct wc.
Qed.

Lemma occurrences_pos (ws : list string) (w : string) :
  In w ws -> (1 <= occurrences ws w)%Z.
Proof.
  intros H. unfold occurrences.
  apply (count_occ_In string_dec) in H. lia.
Qed.

Lemma sum_indicator_le (x : string) (l : list string) :
  NoDup l ->
  (0 <= sum_Z (map (fun a => if string_dec x a then 1 else 0) l) <= 1)%Z
  /\ (~ In x l -> sum_Z (map (fun a => if string_dec x a then 1 else 0) l) = 0)%Z.
Proof.
  induction 1 as [|a l Hni Hnd IH]; simpl; [split; [lia | reflexivity]|].
  destruct IH as [IH0 IH1].
  destruct (string_dec x a) as [->|Hne].
  - rewrite (IH1 Hni). split; [lia|]. intros H. exfalso. auto.
  - split; [lia|]. intros H. rewrite IH1; auto.
Qed.

(** Distinct words account for at most all the words. *)
Lemma sum_occurrences_le (ws l : list string) :
  NoDup l -> (sum_Z (map (occurrences ws) l) <= Z.of_nat (List.length ws))%Z.
Proof.
  intros Hnd. induction ws as [|x ws IH].
  - assert (H : sum_Z (map (occurrences []) l) = 0%Z).
    { clear Hnd. induction l as [|a l IHl]; simpl; [reflexivity|].
      rewrite IHl. reflexivity. }
    rewrite H. simpl. lia.
  - assert (H : sum_Z (map (occurrences (x :: ws)) l)
                = (sum_Z (map (occurrences ws) l)
                   + sum_Z (map (fun a => if string_dec x a then 1 else 0) l))%Z).
    { clear. induction l as [|a l IHl]; simpl; [reflexivity|].
      rewrite IHl. unfold occurrences at 1 3. simpl.
      destruct (string_dec x a); lia. }
    rewrite H. pose proof (proj1 (sum_indicator_le x l Hnd)).
    simpl List.length. lia.
Qed.

(** ** The search table *)

Lemma NoDup_firstn {A} (n : nat) (l : list A) : NoDup l -> NoDup (firstn n l).
Proof.
  intros H. rewrite <- (firstn_skipn n l) in H.
  now apply NoDup_app_remove_r in H.
Qed.

(** The words of the rows of [search_table], best first. *)
Lemma search_table_top (cleaned : list (list string)) :
  let words := List.concat cleaned in
  exists top,
    search_table cleaned
    = [CStr "Query"; CStr "Searches"]
        :: map (fun w => [CStr w; CInt (occurrences words w)]) top
    /\ List.length top <= 5
    /\ NoDup top
    /\ Forall (fun w => In w words /\ (1 <= occurrences words w)%Z) top
    /\ (sum_Z (map (occurrences words) top) <= Z.of_nat (List.length words))%Z
    /\ StronglySorted (ranks_before words) top
    /\ (forall w, In w words -> ~ In w top ->
                  List.length top = 5
                  /\ Forall (fun t => ranks_before words t w) top).
Proof.
  intros words.
  set (gtb := fun a b : string * Z => (snd a >? snd b)%Z).
  set (ord := fun a b : string * Z =>
                first_index words (fst a) < first_index words (fst b)).
  set (items := Counter words).
  set (sorted := sort_desc gtb items).
  destruct (Counter_spec words) as (Hnd & Hkeys & Hget & Hord).
  fold items in Hnd, Hkeys, Hget, Hord.
  assert (Hperm : Permutation sorted items) by apply sort_desc_perm.
  assert (Hitems : forall wc, In wc sorted ->
                     In (fst wc) words /\ snd wc = occurrences words (fst wc)).
  { intros wc Hin. apply Counter_items. eapply Permutation_in; eauto. }
  assert (Hsorted : StronglySorted (sorted_rel gtb ord) sorted).
  { apply sort_desc_sorted with (dom := fun _ => True).
    - unfold gtb. intros a b c _ _ _ H1 H2.
      apply Z.gtb_lt in H1, H2. apply Z.gtb_lt. lia.
    - unfold gtb. intros a b c _ _ _ H1 H2.
      rewrite Z.gtb_ltb in *. apply Z.ltb_ge in H1, H2. apply Z.ltb_ge. lia.
    - apply Forall_forall. auto.
    - apply (StronglySorted_map fst (fun a b => first_index words a < first_index words b)).
      exact Hord. }
  assert (Hrank : forall a b, In a sorted -> In b sorted ->
                    sorted_rel gtb ord a b -> ranks_before words (fst a) (fst b)).
  { intros a b Ha Hb Hab. destruct (Hitems a Ha) as [_ Ea], (Hitems b Hb) as [_ Eb].
    unfold ranks_before. rewrite <- Ea, <- Eb.
    destruct Hab as [Hgt|[Hge Ho]]; unfold gtb in *.
    - apply Z.gtb_lt in Hgt. left. lia.
    - rewrite Z.gtb_ltb in Hge. apply Z.ltb_ge in Hge.
      destruct (Z.eq_dec (snd a) (snd b)); [right; auto | left; lia]. }
  destruct (firstn_sorted_cut _ 5 sorted Hsorted) as [Hfirst Hcut].
  exists (map fst (firstn 5 sorted)).
  assert (Hsub : forall wc, In wc (firstn 5 sorted) -> In wc sorted)
    by (intros wc; apply in_firstn).
  repeat split.
  - unfold search_table, most_common. fold words items gtb sorted.
    f_equal. rewrite map_map. apply map_ext_in. intros wc Hin.
    destruct (Hitems wc (Hsub wc Hin)) as [_ ->]. reflexivity.
  - rewrite length_map. apply firstn_le_length.
  - rewrite <- firstn_map. apply NoDup_firstn.
    eapply Permutation_NoDup; [|exact Hnd].
    symmetry. now apply Permutation_map.
  - apply Forall_forall. intros w Hw. apply in_map_iff in Hw as (wc & <- & Hin).
    destruct (Hitems wc (Hsub wc Hin)) as [Hw _]. split; [assumption|].
    now apply occurrences_pos.
  - apply sum_occurrences_le. rewrite <- firstn_map. apply NoDup_firstn.
    eapply Permutation_NoDup; [|exact Hnd].
    symmetry. now apply Permutation_map.
  - apply (proj1 (StronglySorted_map fst (ranks_before words) (firstn 5 sorted))).
    apply (StronglySorted_impl_in (sorted_rel gtb ord)); [|exact Hfirst].
    intros a b Ha Hb. apply Hrank; auto.
  - assert (Hin : In (w, occurrences words w) sorted).
    { apply Hkeys in H. apply in_map_iff in H as ([k n] & Hk & Hin). simpl in Hk. subst k.
      eapply Permutation_in; [symmetry; exact Hperm|].
      destruct (Counter_items words (w, n) Hin) as [_ E]. simpl in E. now subst n. }
    rewrite <- (firstn_skipn 5 sorted) in Hin. apply in_app_or in Hin as [Hin|Hin].
    + exfalso. apply H0. apply in_map_iff. exists (w, occurrences words w). auto.
    + rewrite length_map. now destruct (Hcut _ Hin).
  - assert (Hin : In (w, occurrences words w) sorted).
    { apply Hkeys in H. apply in_map_iff in H as ([k n] & Hk & Hin). simpl in Hk. subst k.
      eapply Permutation_in; [symmetry; exact Hperm|].
      destruct (Counter_items words (w, n) Hin) as [_ E]. simpl in E. now subst n. }
    pose proof Hin as Hin'.
    rewrite <- (firstn_skipn 5 sorted) in Hin. apply in_app_or in Hin as [Hin|Hin].
    + exfalso. apply H0. apply in_map_iff. exists (w, occurrences words w). auto.
    + destruct (Hcut _ Hin) as [_ Hall].
      apply Forall_map. rewrite Forall_forall in *. intros t Ht.
      apply (Hrank t (w, occurrences words w)); auto.
Qed.

(** Cleaning succeeds exactly on text. *)
Lemma clean_all_text (queries : list cell) :
  Forall (fun c => exists s, c = CStr s) queries ->
  exists cleaned, rmapM clean_query_cell queries = OK cleaned.
Proof.
  induction 1 as [|c l [s ->] _ [cleaned IH]]; simpl.
  - eauto.
  - rewrite IH. simpl. eauto.
Qed.

(** C3.  The search table is the header and at most 5 rows.  Each row
    is a word and the number of its occurrences among all the words of
    all the queries, an integer of at least 1; the rows are distinct
    words, so their counts sum to at most the number of words.  The
    rows are in decreasing order of count and, among equal counts, in
    the order of first insertion into the counter; every word left out
    comes after all five rows in that order. *)
Theorem search_data_top5 (df : frame) (tbl : table) :
  search_data df = OK tbl ->
  exists queries cleaned top,
    column df 1 = OK queries
    /\ rmapM clean_query_cell queries = OK cleaned
    /\ tbl = [CStr "Query"; CStr "Searches"]
               :: map (fun w => [CStr w; CInt (occurrences (List.concat cleaned) w)]) top
    /\ List.length tbl <= 6
    /\ List.length top <= 5
    /\ NoDup top
    /\ Forall (fun w => In w (List.concat cleaned)
                        /\ (0 <= occurrences (List.concat cleaned) w)%Z) top
    /\ (sum_Z (map (occurrences (List.concat cleaned)) top)
        <= Z.of_nat (List.length (List.concat cleaned)))%Z
    /\ StronglySorted (ranks_before (List.concat cleaned)) top
    /\ (forall w, In w (List.concat cleaned) -> ~ In w top ->
                  List.length top = 5
                  /\ Forall (fun t => ranks_before (List.concat cleaned) t w) top).
Proof.
  unfold search_data, rbind.
  destruct (column df 1) as [queries|e]; [|discriminate].
  destruct (rmapM clean_query_cell queries) as [cleaned|e] eqn:Hclean; [|discriminate].
  intros H. inversion H as [Ht]. clear H.
  destruct (search_table_top cleaned) as (top & Heq & Hlen & Hnd & Hin & Hsum & Hs & Hout).
  exists queries, cleaned, top. rewrite Heq. simpl List.length. rewrite length_map.
  split; [reflexivity|]. split; [assumption|]. split; [reflexivity|].
  split; [lia|]. split; [assumption|]. split; [assumption|].
  split; [|split; [assumption|split; assumption]].
  eapply Forall_impl; [|exact Hin]. simpl. intros w [H1 H2]. split; [assumption | lia].
Qed.

Lemma search_data_top5_witness :
  search_data Sample.searches
  = OK [[CStr "Query"; CStr "Searches"]; [CStr "reset"; CInt 2];
        [CStr "password"; CInt 2]; [CStr "vpn"; CInt 2]; [CStr "login"; CInt 1]]
  /\ exists top : list string, List.length top <= 5 /\ NoDup top.
Proof.
  split; [reflexivity|].
  destruct (search_data_top5 Sample.searches _ eq_refl)
    as (queries & cleaned & top & _ & _ & _ & _ & Hlen & Hnd & _).
  exists top. split; assumption.
Defined.

(** ** The user table *)

Section Users.

Variable to_datetime : cell -> result timestamp.
Variable numeric_of_object : cell -> number.
Variable render : list flowable -> result unit.
Variable tie_rank : list pyfloat -> nat -> Z.

#[local] Abbreviation script := (run to_datetime numeric_of_object render tie_rank).
#[local] Abbreviation rows_of := (user_rows numeric_of_object).
#[local] Abbreviation users_table := (user_data numeric_of_object tie_rank).

Lemma sort_desc_length {A} (gtb : A -> A -> bool) (l : list A) :
  List.length (sort_desc gtb l) = List.length l.
Proof. apply Permutation_length, sort_desc_perm. Qed.

(** *** Order on floats *)

Lemma float_gtb_fin (p q : Q) :
  float_gtb (Fin p) (Fin q) = true <-> (q < p)%Q.
Proof.
  simpl. rewrite negb_true_iff. split.
  - intros H. apply Qnot_le_lt. intros Hle.
    apply Qle_bool_iff in Hle. congruence.
  - intros H. destruct (Qle_bool p q) eqn:Hb; [|reflexivity].
    apply Qle_bool_iff in Hb. exfalso. eapply Qlt_not_le; eauto.
Qed.

Lemma float_gtb_fin_false (p q : Q) :
  float_gtb (Fin p) (Fin q) = false <-> (p <= q)%Q.
Proof.
  simpl. rewrite negb_false_iff. apply Qle_bool_iff.
Qed.

Lemma float_gtb_trans (a b c : pyfloat) :
  float_gtb a b = true -> float_gtb b c = true -> float_gtb a c = true.
Proof.
  destruct a as [|[]|p], b as [|[]|q], c as [|[]|r];
    try (simpl; congruence).
  rewrite !float_gtb_fin. intros H1 H2. eapply Qlt_trans; eauto.
Qed.

Lemma float_gtb_neg_trans (a b c : pyfloat) :
  isnan a = false -> isnan b = false -> isnan c = false ->
  float_gtb a b = false -> float_gtb b c = false -> float_gtb a c = false.
Proof.
  destruct a as [|[]|p], b as [|[]|q], c as [|[]|r];
    try (simpl; congruence).
  intros _ _ _. rewrite !float_gtb_fin_false. intros H1 H2. eapply Qle_trans; eauto.
Qed.

Lemma float_gtb_asym (a b : pyfloat) :
  float_gtb a b = true -> float_gtb b a = false.
Proof.
  destruct a as [|[]|p], b as [|[]|q]; try (simpl; congruence).
  rewrite float_gtb_fin, float_gtb_fin_false. apply Qlt_le_weak.
Qed.

(** Two numbers equal to a third are not apart. *)
Lemma float_eqb_not_gtb (v x y : pyfloat) :
  float_eqb v x = true -> float_eqb v y = true -> float_gtb y x = false.
Proof.
  unfold float_eqb. intros Hx Hy.
  repeat (apply andb_true_iff in Hx as [Hx ?]).
  repeat (apply andb_true_iff in Hy as [Hy ?]).
  repeat match goal with
         | H : negb _ = true |- _ => apply negb_true_iff in H
         end.
  apply (float_gtb_neg_trans y v x); auto.
Qed.

(** *** The two sorts *)

Lemma snd_combine {B C} (l : list B) (l' : list C) :
  List.length l = List.length l' -> map snd (combine l l') = l'.
Proof.
  revert l'. induction l as [|x l IH]; intros [|y l'] H; simpl in *;
    try discriminate; [reflexivity|].
  now rewrite IH by lia.
Qed.

(** A sort by value puts numbers largest first, whatever the order of
    its input. *)
Lemma sort_desc_by_value {B} (f : B -> pyfloat) (l : list B) :
  Forall (fun r => isnan (f r) = false) l ->
  StronglySorted (fun a b => float_gtb (f b) (f a) = false)
                 (sort_desc (fun a b => float_gtb (f a) (f b)) l).
Proof.
  intros Hdom.
  eapply StronglySorted_impl_in;
    [|apply sort_desc_sorted
        with (ord := fun _ _ => True) (dom := fun r => isnan (f r) = false)].
  - intros a b _ _ [Hg|[Hg _]]; [now apply float_gtb_asym | exact Hg].
  - intros a b c _ _ _. apply float_gtb_trans.
  - intros a b c. apply float_gtb_neg_trans.
  - assumption.
  - clear. induction l; constructor; auto. apply Forall_forall. auto.
Qed.

Lemma unstable_sort_desc_perm {B} (rank : list pyfloat -> nat -> Z)
      (l : list (B * pyfloat)) :
  Permutation (unstable_sort_desc rank l) l.
Proof.
  unfold unstable_sort_desc.
  etransitivity; [apply Permutation_map, sort_desc_perm|].
  etransitivity; [apply Permutation_map, sort_desc_perm|].
  rewrite snd_combine; [reflexivity|]. now rewrite length_map, length_seq.
Qed.

Lemma unstable_sort_desc_sorted {B} (rank : list pyfloat -> nat -> Z)
      (l : list (B * pyfloat)) :
  Forall (fun r => isnan (snd r) = false) l ->
  StronglySorted (fun a b => float_gtb (snd b) (snd a) = false)
                 (unstable_sort_desc rank l).
Proof.
  intros Hdom. unfold unstable_sort_desc.
  apply StronglySorted_map.
  apply (sort_desc_by_value (fun a : Z * (B * pyfloat) => snd (snd a))).
  eapply Permutation_Forall; [symmetry; apply sort_desc_perm|].
  apply Forall_forall. intros [k r] Hin. simpl.
  apply in_combine_r in Hin. rewrite Forall_forall in Hdom. now apply Hdom.
Qed.

Lemma numbers_not_nan {B} (rows : list (B * pyfloat)) :
  Forall (fun r => isnan (snd r) = false)
         (filter (fun r => negb (isnan (snd r))) rows).
Proof.
  apply Forall_forall. intros r Hr. apply filter_In in Hr as [_ Hr].
  now apply negb_true_iff in Hr.
Qed.

Lemma ranked_numbers_perm {B} (rank : list pyfloat -> nat -> Z) (n : nat)
      (rows : list (B * pyfloat)) :
  Permutation (ranked_numbers rank n rows)
              (filter (fun r => negb (isnan (snd r))) rows).
Proof.
  unfold ranked_numbers. destruct (n <? List.length rows)%nat.
  - apply sort_desc_perm.
  - apply unstable_sort_desc_perm.
Qed.

Lemma ranked_numbers_sorted {B} (rank : list pyfloat -> nat -> Z) (n : nat)
      (rows : list (B * pyfloat)) :
  StronglySorted (fun a b => float_gtb (snd b) (snd a) = false)
                 (ranked_numbers rank n rows).
Proof.
  unfold ranked_numbers. destruct (n <? List.length rows)%nat.
  - apply (sort_desc_by_value (fun r : B * pyfloat => snd r)), numbers_not_nan.
  - apply unstable_sort_desc_sorted, numbers_not_nan.
Qed.

(** With fewer than [n] numeric rows, the first NaN row is selected. *)
Lemma nlargest_takes_nan {B} (rank : list pyfloat -> nat -> Z) (n : nat)
      (rows : list (B * pyfloat)) :
  List.length (filter (fun r => negb (isnan (snd r))) rows) < n ->
  Exists (fun r => snd r = NaN) rows ->
  Exists (fun r => snd r = NaN) (nlargest rank n rows).
Proof.
  intros Hlen Hex. unfold nlargest.
  set (numeric := ranked_numbers rank n rows).
  assert (Hn : List.length numeric < n).
  { subst numeric. now rewrite (Permutation_length (ranked_numbers_perm rank n rows)). }
  destruct (filter (fun r => isnan (snd r)) rows) as [|r nans] eqn:Hnans.
  - exfalso. apply Exists_exists in Hex as (r & Hin & Hr).
    assert (H : In r (filter (fun r => isnan (snd r)) rows))
      by (apply filter_In; rewrite Hr; auto).
    rewrite Hnans in H. contradiction.
  - assert (Hr : snd r = NaN).
    { assert (H : In r (filter (fun r => isnan (snd r)) rows))
        by (rewrite Hnans; now left).
      apply filter_In in H as [_ H]. now destruct (snd r). }
    apply Exists_exists. exists r. split; [|assumption].
    rewrite firstn_app. apply in_or_app. right.
    destruct (n - List.length numeric) as [|k] eqn:Hk; [lia|]. now left.
Qed.

(** *** Stability of the sort *)

Lemma filter_insert_desc {A} (gtb : A -> A -> bool) (p : A -> bool) (x : A) (l : list A) :
  (forall y, p x = true -> p y = true -> gtb y x = false) ->
  filter p (insert_desc gtb x l) = if p x then x :: filter p l else filter p l.
Proof.
  intros Hp. induction l as [|y l IH]; simpl; [reflexivity|].
  destruct (gtb y x) eqn:Hg; simpl; [|reflexivity].
  rewrite IH. destruct (p x) eqn:Hx; [|reflexivity].
  destruct (p y) eqn:Hy; [|reflexivity].
  rewrite (Hp y eq_refl Hy) in Hg. discriminate.
Qed.

Lemma filter_sort_desc {A} (gtb : A -> A -> bool) (p : A -> bool) (l : list A) :
  (forall x y, p x = true -> p y = true -> gtb y x = false) ->
  filter p (sort_desc gtb l) = filter p l.
Proof.
  intros Hp. induction l as [|x l IH]; simpl; [reflexivity|].
  rewrite filter_insert_desc by (intros y; apply Hp). now rewrite IH.
Qed.

Lemma filter_split_perm {A} (p : A -> bool) (l : list A) :
  Permutation (filter p l ++ filter (fun x => negb (p x)) l) l.
Proof.
  induction l as [|x l IH]; simpl; [constructor|].
  destruct (p x); simpl.
  - now constructor.
  - rewrite <- Permutation_middle. now constructor.
Qed.

(** When no selected row is NaN, the selection is the head of the
    sorted numeric rows. *)
Lemma nlargest_numeric {B} (rank : list pyfloat -> nat -> Z) (n : nat)
      (rows : list (B * pyfloat)) :
  Forall (fun r => isnan (snd r) = false) (nlargest rank n rows) ->
  let sorted := ranked_numbers rank n rows in
  nlargest rank n rows = firstn n sorted
  /\ (filter (fun r => isnan (snd r)) rows <> [] -> n <= List.length sorted).
Proof.
  intros Hall sorted. unfold nlargest in *. fold sorted in Hall |- *.
  rewrite firstn_app in *.
  destruct (filter (fun r => isnan (snd r)) rows) as [|r nans] eqn:Hn.
  - rewrite firstn_nil, app_nil_r. split; [reflexivity | congruence].
  - destruct (n - List.length sorted) as [|k] eqn:Hk.
    + simpl. rewrite app_nil_r. split; [reflexivity | lia].
    + exfalso. apply Forall_app in Hall as [_ Hall]. simpl in Hall.
      inversion Hall as [|? ? Hr _]; subst.
      assert (H : In r (filter (fun r => isnan (snd r)) rows))
        by (rewrite Hn; now left).
      apply filter_In in H as [_ H]. congruence.
Qed.

Lemma rmapM_map {B C D} (g : B -> C) (f : C -> result D) (l : list B) :
  rmapM f (map g l) = rmapM (fun x => f (g x)) l.
Proof.
  induction l as [|x l IH]; simpl; [reflexivity|]. now rewrite IH.
Qed.

(** What holds of a user table that was built: it lists the selected
    rows, at most 10, all with a finite number, largest first, the name
    as the common array of names and views holds it; the rows left out
    are NaN rows or are not greater than any selected row; with more
    than 10 rows, equal values keep the order of the file. *)
Lemma user_data_top10 (df : frame) (tbl : table) :
  users_table df = OK tbl ->
  exists top data rest d,
    top = nlargest tie_rank 10 (rows_of df)
    /\ tbl = [CStr "User"; CStr "Views"] :: data
    /\ Forall2 (fun r out =>
                  exists q, snd r = Fin q
                            /\ out = [astype d (fst r);
                                      CInt (Z.quot (Qnum q) (Zpos (Qden q)))])
               top data
    /\ List.length data <= 10
    /\ StronglySorted (fun a b => float_gtb (snd b) (snd a) = false) top
    /\ Permutation (top ++ rest) (rows_of df)
    /\ (rest <> [] -> List.length top = 10)
    /\ Forall (fun r => isnan (snd r) = true
                        \/ Forall (fun t => float_gtb (snd r) (snd t) = false) top) rest
    /\ (10 < List.length (rows_of df) ->
        forall v, exists tail,
           filter (fun r => float_eqb v (snd r)) (rows_of df)
           = filter (fun r => float_eqb v (snd r)) top ++ tail).
Proof.
  unfold user_data, rbind.
  destruct (column df 3) as [col|e]; [|discriminate].
  cbv zeta. rewrite rmapM_map.
  set (d := common _ _).
  destruct (rmapM _ (nlargest tie_rank 10 (rows_of df))) as [data|e] eqn:Hm;
    [|discriminate].
  intros H. inversion H; subst. clear H.
  apply rmapM_ok in Hm.
  set (rows := rows_of df) in *.
  assert (Hfin : Forall2 (fun r out =>
                  exists q, snd r = Fin q
                            /\ out = [astype d (fst r);
                                      CInt (Z.quot (Qnum q) (Zpos (Qden q)))])
               (nlargest tie_rank 10 rows) data).
  { eapply Forall2_impl; [|exact Hm]. intros r out Hr.
    unfold user_row, rbind in Hr. cbn [fst snd] in Hr.
    destruct (snd r) as [| |q]; try discriminate.
    simpl in Hr. inversion Hr. eauto. }
  assert (Hnum : Forall (fun r => isnan (snd r) = false) (nlargest tie_rank 10 rows)).
  { clear -Hfin. induction Hfin as [|r out l l' [q [Hq _]] _ IH]; constructor; auto.
    now rewrite Hq. }
  destruct (nlargest_numeric tie_rank 10 rows Hnum) as [Htop Hfull].
  set (numeric := filter (fun r => negb (isnan (snd r))) rows) in *.
  set (sorted := ranked_numbers tie_rank 10 rows) in *.
  pose proof (ranked_numbers_sorted tie_rank 10 rows) as Hsorted. fold sorted in Hsorted.
  destruct (firstn_sorted_cut _ 10 sorted Hsorted) as [Hfirst Hcut].
  exists (nlargest tie_rank 10 rows), data,
         (skipn 10 sorted ++ filter (fun r => isnan (snd r)) rows), d.
  split; [reflexivity|]. split; [reflexivity|]. split; [exact Hfin|].
  split.
  { rewrite <- (Forall2_length Hfin), Htop. apply firstn_le_length. }
  split.
  { rewrite Htop. exact Hfirst. }
  split.
  { rewrite Htop, app_assoc, firstn_skipn.
    etransitivity; [|apply (filter_split_perm (fun r => negb (isnan (snd r))) rows)].
    apply Permutation_app; [apply ranked_numbers_perm|].
    erewrite filter_ext; [reflexivity|]. intros r. simpl. now rewrite negb_involutive. }
  split.
  { intros Hne. rewrite Htop.
    assert (Hs : skipn 10 sorted = [] \/ exists r, In r (skipn 10 sorted)).
    { destruct (skipn 10 sorted) as [|r t]; [now left | right; exists r; now left]. }
    destruct Hs as [Hs|[r Hr]].
    - rewrite Hs in Hne. simpl in Hne. specialize (Hfull Hne).
      rewrite length_firstn. lia.
    - now apply (Hcut r). }
  split.
  { apply Forall_app. split.
    - apply Forall_forall. intros r Hr. right. rewrite Htop.
      destruct (Hcut r Hr) as [_ Hall]. exact Hall.
    - apply Forall_forall. intros r Hr. left. now apply filter_In in Hr. }
  intros Hmany v. exists (filter (fun r => float_eqb v (snd r)) (skipn 10 sorted)).
  rewrite Htop, <- filter_app, firstn_skipn.
  unfold sorted, ranked_numbers.
  apply Nat.ltb_lt in Hmany. rewrite Hmany.
  rewrite filter_sort_desc.
  - clear. induction rows as [|r rows IH]; simpl; [reflexivity|].
    destruct (isnan (snd r)) eqn:Hn; simpl.
    + unfold float_eqb at 1. rewrite Hn. simpl.
      rewrite andb_false_r. simpl. exact IH.
    + destruct (float_eqb v (snd r)); now rewrite IH.
  - intros x y Hx Hy. unfold by_value. eapply float_eqb_not_gtb; eauto.
Qed.

(** C4.  When fewer than 10 rows from position 4 on have a numeric
    views cell and some row has a views cell that is not numeric, that
    row is not excluded from the ranking: [nlargest] selects it after
    the numeric rows, [int()] raises on its NaN, no user table is built
    and every run on that file aborts without writing the report. *)
Theorem user_data_fails_on_ranked_nan (df : frame) :
  3 < ncols df ->
  List.length (filter (fun r => negb (isnan (snd r))) (rows_of df)) < 10 ->
  Exists (fun r => snd r = NaN) (rows_of df) ->
  Exists (fun r => snd r = NaN) (nlargest tie_rank 10 (rows_of df))
  /\ (exists e, users_table df = Raise e)
  /\ (forall files w,
         users_xls files = OK df ->
         exists e w', script files w = (Raise e, w') /\ pdf_file w' = pdf_file w).
Proof.
  intros Hcols Hlen Hex.
  pose proof (nlargest_takes_nan tie_rank 10 _ Hlen Hex) as Htop.
  assert (Hfail : exists e, users_table df = Raise e).
  { unfold user_data, column. apply Nat.ltb_lt in Hcols. rewrite Hcols.
    cbn [rbind]. cbv zeta. rewrite rmapM_map.
    set (d := common _ _).
    destruct (rmapM_raises (fun r => user_row (astype d (fst r), snd r))
                           (nlargest tie_rank 10 (rows_of df))) as (e & r & Hm & _).
    - eapply Exists_impl; [|exact Htop]. simpl. intros r Hr.
      unfold user_row. cbn [fst snd]. rewrite Hr. simpl. eauto.
    - exists e. now rewrite Hm. }
  repeat split; try assumption.
  intros files w Hu. destruct Hfail as [e He].
  apply (run_aborts to_datetime numeric_of_object render tie_rank).
  eapply fail_user_data; eauto.
Qed.

End Users.

Lemma user_data_fails_on_ranked_nan_witness :
  3 < ncols (Sample.users (CStr "n/a"))
  /\ user_data Sample.numeric_of_object Sample.tie_rank (Sample.users (CStr "n/a"))
     = Raise ValueError
  /\ exists e, user_data Sample.numeric_of_object Sample.tie_rank
                         (Sample.users (CStr "n/a")) = Raise e.
Proof.
  split; [simpl; lia|]. split; [reflexivity|].
  refine (proj1 (proj2 (user_data_fails_on_ranked_nan Sample.to_datetime
            Sample.numeric_of_object Sample.render Sample.tie_rank
            (Sample.users (CStr "n/a")) _ _ _))).
  - simpl. lia.
  - vm_compute. lia.
  - apply Exists_cons_tl, Exists_cons_hd. reflexivity.
Defined.

(** ** The properties on the sample files *)

Lemma date_range_rendered_witness :
  categories_xls Sample.good
  = OK (Sample.categories (CStr "03/01/2024") (CStr "3/31/2024"))
  /\ date_range (Sample.categories (CStr "03/01/2024") (CStr "3/31/2024")) Sample.world0
     = (OK ("March 01, 2024", "March 31, 2024"), Sample.world0)
  /\ (exists story,
         fst (run Sample.to_datetime Sample.numeric_of_object Sample.render
                  Sample.tie_rank Sample.good Sample.world0) = OK tt
         /\ pdf_file (snd (run Sample.to_datetime Sample.numeric_of_object Sample.render
                               Sample.tie_rank Sample.good Sample.world0)) = Some story
         /\ nth_error story 1
            = Some (Paragraph "Data from March 01, 2024 to March 31, 2024" DateStyle))
  /\ date_range (Sample.categories (CStr "03/01/2024") Sample.empty) Sample.world0
     = (OK (Unavailable, Unavailable), mkWorld [date_error_line] None).
Proof.
  split; [reflexivity|].
  destruct (date_range_rendered Sample.to_datetime Sample.numeric_of_object
              Sample.render Sample.tie_rank Sample.good
              (Sample.categories (CStr "03/01/2024") (CStr "3/31/2024"))
              Sample.world0 eq_refl) as (Hgood & _ & _ & _ & _ & _ & _ & Hrun & _).
  split; [|split].
  - exact (proj1 (Hgood (CStr "03/01/2024") (CStr "3/31/2024")
                        (mkDate 2024 3 1) (mkDate 2024 3 31)
                        eq_refl eq_refl eq_refl eq_refl)).
  - destruct (Hrun (CStr "03/01/2024") (CStr "3/31/2024") _ eq_refl eq_refl eq_refl)
      as (Hline & Hok & _).
    destruct (Hok eq_refl) as [Hfst Hpdf].
    eexists. split; [exact Hfst|]. split; [exact Hpdf | exact Hline].
  - destruct (date_range_rendered Sample.to_datetime Sample.numeric_of_object
                Sample.render Sample.tie_rank
                (Sample.files (CStr "03/01/2024") Sample.empty
                              (CDate (mkDate 2024 2 9) 0) (CInt 5))
                (Sample.categories (CStr "03/01/2024") Sample.empty)
                Sample.world0 eq_refl) as (_ & Hbad & _).
    exact (proj1 (Hbad (CStr "03/01/2024") Sample.empty eq_refl eq_refl
                       (or_intror eq_refl))).
Defined.

(** C1, as the claim states it, fails on a categories sheet that ends
    after its first row: the end-date cell is missing, and instead of
    the value "Unavailable" and a report, the run aborts with
    [IndexError] before it prints or writes anything, although every
    later step and the layout succeed on these files. *)
Lemma date_range_missing_cell_aborts :
  iloc Sample.one_row 0 1 = OK (CStr "03/01/2024")
  /\ iloc Sample.one_row 1 1 = Raise IndexError
  /\ date_range Sample.one_row Sample.world0 = (Raise IndexError, Sample.world0)
  /\ (exists tables,
         later_tables Sample.to_datetime Sample.numeric_of_object Sample.tie_rank
                      Sample.short = OK tables)
  /\ run Sample.to_datetime Sample.numeric_of_object Sample.render Sample.tie_rank
         Sample.short Sample.world0
     = (Raise IndexError, Sample.world0).
Proof.
  split; [reflexivity|]. split; [reflexivity|]. split; [reflexivity|].
  split; [eexists; reflexivity | reflexivity].
Qed.

Lemma tables_rectangular_witness :
  exists w' story,
    run Sample.to_datetime Sample.numeric_of_object Sample.render Sample.tie_rank
        Sample.good Sample.world0
    = (OK tt, w')
    /\ pdf_file w' = Some story
    /\ forall data widths,
        In (Table data widths) story ->
        exists header rows,
          data = header :: rows
          /\ Forall (fun r => List.length r = List.length header) rows.
Proof.
  eexists. eexists. split; [vm_compute; reflexivity|]. split; [reflexivity|].
  apply (proj2 (tables_rectangular Sample.to_datetime Sample.numeric_of_object
                  Sample.render Sample.tie_rank
                  Sample.good Sample.world0 _ _ eq_refl eq_refl)).
Defined.

Lemma all_or_nothing_witness :
  (step_fails Sample.to_datetime Sample.numeric_of_object Sample.render Sample.tie_rank
     (mkInputs (OK (Sample.categories Sample.empty Sample.empty))
               (OK (Sample.questions (CDate (mkDate 2024 2 9) 0)))
               (OK Sample.searches) (Raise FileNotFoundError))
   /\ exists e w',
       run Sample.to_datetime Sample.numeric_of_object Sample.render Sample.tie_rank
         (mkInputs (OK (Sample.categories Sample.empty Sample.empty))
                   (OK (Sample.questions (CDate (mkDate 2024 2 9) 0)))
                   (OK Sample.searches) (Raise FileNotFoundError))
         Sample.world0 = (Raise e, w')
       /\ pdf_file w' = pdf_file Sample.world0)
  /\ (step_fails Sample.to_datetime Sample.numeric_of_object Sample.no_room
        Sample.tie_rank Sample.good
      /\ run Sample.to_datetime Sample.numeric_of_object Sample.no_room Sample.tie_rank
             Sample.good Sample.world0
         = (Raise LayoutError, Sample.world0)
      /\ exists e w',
          run Sample.to_datetime Sample.numeric_of_object Sample.no_room Sample.tie_rank
              Sample.good Sample.world0 = (Raise e, w')
          /\ pdf_file w' = pdf_file Sample.world0)
  /\ (~ step_fails Sample.to_datetime Sample.numeric_of_object Sample.render
        Sample.tie_rank Sample.good
      /\ exists w' story,
          run Sample.to_datetime Sample.numeric_of_object Sample.render Sample.tie_rank
              Sample.good Sample.world0 = (OK tt, w')
          /\ pdf_file w' = Some story).
Proof.
  split; [|split].
  - assert (H : step_fails Sample.to_datetime Sample.numeric_of_object
                  Sample.render Sample.tie_rank
      (mkInputs (OK (Sample.categories Sample.empty Sample.empty))
                (OK (Sample.questions (CDate (mkDate 2024 2 9) 0)))
                (OK Sample.searches) (Raise FileNotFoundError)))
      by (eapply fail_read_users; reflexivity).
    split; [exact H|].
    exact (proj1 (all_or_nothing Sample.to_datetime Sample.numeric_of_object
                    Sample.render Sample.tie_rank _ Sample.world0) H).
  - assert (H : step_fails Sample.to_datetime Sample.numeric_of_object Sample.no_room
                  Sample.tie_rank Sample.good)
      by (eapply fail_build; reflexivity).
    split; [exact H|]. split; [reflexivity|].
    exact (proj1 (all_or_nothing Sample.to_datetime Sample.numeric_of_object
                    Sample.no_room Sample.tie_rank _ Sample.world0) H).
  - assert (H : ~ step_fails Sample.to_datetime Sample.numeric_of_object Sample.render
                    Sample.tie_rank Sample.good).
    { apply (proj2 (proj2 (all_or_nothing Sample.to_datetime Sample.numeric_of_object
                             Sample.render Sample.tie_rank Sample.good Sample.world0))).
      vm_compute. discriminate. }
    split; [exact H|].
    exact (proj1 (proj2 (all_or_nothing Sample.to_datetime Sample.numeric_of_object
                           Sample.render Sample.tie_rank Sample.good Sample.world0)) H).
Defined.



(** * Further properties *)

(** ** [clean_query] (lines 26-32) *)

Lemma split_from_words (cur : string) (b : bool) (s : string) :
  (b = true -> cur = EmptyString) ->
  Str.split_from cur (Str.lower (Str.sub_runs Str.is_word b s)) = words_from cur s.
Proof.
  revert cur b. induction s as [|c s IH]; intros cur b Hb; simpl; [reflexivity|].
  destruct (Str.is_word c) eqn:Hw; simpl.
  - rewrite (word_not_space c Hw). apply IH. discriminate.
  - destruct b.
    + rewrite (Hb eq_refl). apply (IH EmptyString true). reflexivity.
    + simpl. replace (Str.isspace (Str.lower_char Str.space)) with true by reflexivity.
      rewrite (IH EmptyString true) by reflexivity. reflexivity.
Qed.

Lemma clean_query_words (q : string) : Str.clean_query q = words_from EmptyString q.
Proof. unfold Str.clean_query, Str.split. apply split_from_words. discriminate. Qed.

Lemma token_char_lower (c : ascii) :
  Str.is_word c = true -> token_char (Str.lower_char c) = true.
Proof. unfold token_char. each_char c. Qed.

Lemma token_char_facts (c : ascii) :
  token_char c = true ->
  Str.is_word c = true /\ Str.lower_char c = c /\ Str.isspace c = false.
Proof. unfold token_char. each_char c. Qed.

Lemma words_from_tokens (cur s : string) :
  string_all token_char cur = true ->
  Forall (fun w => w <> EmptyString /\ string_all token_char w = true)
         (words_from cur s).
Proof.
  revert cur. induction s as [|c s IH]; intros cur Hcur; simpl.
  - destruct cur; constructor; [split; [discriminate | assumption] | constructor].
  - destruct (Str.is_word c) eqn:Hw.
    + apply IH. rewrite string_all_app, Hcur. simpl.
      now rewrite (token_char_lower c Hw).
    + destruct cur as [|x cur].
      * apply IH. reflexivity.
      * constructor; [split; [discriminate | assumption]|]. apply IH. reflexivity.
Qed.

Lemma lower_token (w : string) :
  string_all token_char w = true -> Str.lower w = w.
Proof.
  induction w as [|c w IH]; simpl; [reflexivity|].
  intros H. apply andb_true_iff in H as [Hc Hw].
  destruct (token_char_facts c Hc) as (_ & -> & _). now rewrite IH.
Qed.

(** X5.  For a query of Latin-1 characters (code points 0 to 255, the
    text of this model), every token is a non-empty string of word
    characters, none of them whitespace, none of them changed by
    lower-casing.  Outside Latin-1 lower-casing can lengthen a token by
    a combining mark (U+0130), and the property does not extend. *)
Theorem clean_query_tokens_wellformed (q : string) :
  Forall (fun w =>
            w <> EmptyString
            /\ string_all Str.is_word w = true
            /\ string_all (fun c => negb (Str.isspace c)) w = true
            /\ Str.lower w = w)
         (Str.clean_query q).
Proof.
  rewrite clean_query_words.
  eapply Forall_impl; [|apply (words_from_tokens EmptyString q eq_refl)].
  simpl. intros w [Hne Hw]. split; [assumption|]. split; [|split].
  - eapply string_all_impl; [|exact Hw]. intros c Hc. apply (token_char_facts c Hc).
  - eapply string_all_impl; [|exact Hw]. intros c Hc.
    destruct (token_char_facts c Hc) as (_ & _ & ->). reflexivity.
  - now apply lower_token.
Qed.

Lemma words_from_sep (cur a b : string) (c : ascii) :
  Str.is_word c = false ->
  words_from cur (a ++ String c b) = words_from cur a ++ words_from EmptyString b.
Proof.
  intros Hc. revert cur. induction a as [|x a IH]; intros cur; simpl.
  - rewrite Hc. destruct cur; reflexivity.
  - destruct (Str.is_word x); [apply IH|].
    destruct cur; rewrite IH; reflexivity.
Qed.

(** X6.  A query cut at any character that is not a word character (a space,
    a comma, ...) has the tokens of the left part followed by the tokens
    of the right part. *)
Theorem clean_query_separator (a b : string) (c : ascii) :
  Str.is_word c = false ->
  Str.clean_query (a ++ String c b) = Str.clean_query a ++ Str.clean_query b.
Proof.
  intros Hc. rewrite !clean_query_words. now apply words_from_sep.
Qed.

Lemma clean_query_separator_witness :
  Str.is_word ","%char = false
  /\ Str.clean_query "VPN login,Reset" = Str.clean_query "VPN login" ++ Str.clean_query "Reset".
Proof.
  split; [reflexivity|].
  exact (clean_query_separator "VPN login" "Reset" ","%char eq_refl).
Defined.

(** X7.  For a query of Latin-1 characters (code points 0 to 255, the
    text of this model), cleaning a token again gives that token alone:
    the tokens are fixed points of the tokenizer.  Outside Latin-1 the
    property does not extend (the token of U+0130 is not one). *)
Theorem clean_query_token_fixed (q w : string) :
  In w (Str.clean_query q) -> Str.clean_query w = [w].
Proof.
  rewrite clean_query_words. intros Hin.
  pose proof (words_from_tokens EmptyString q eq_refl) as Hall.
  rewrite Forall_forall in Hall. destruct (Hall w Hin) as [Hne Hw].
  rewrite clean_query_word; auto.
  - now rewrite lower_token.
  - eapply string_all_impl; [|exact Hw]. intros c Hc. apply (token_char_facts c Hc).
Qed.

Lemma clean_query_token_fixed_witness :
  In "world" (Str.clean_query "Hello, World!")
  /\ Str.clean_query "world" = ["world"].
Proof.
  split; [right; left; reflexivity|].
  apply (clean_query_token_fixed "Hello, World!" "world"). right; left; reflexivity.
Defined.

Lemma words_from_nil (cur s : string) :
  words_from cur s = [] <->
  cur = EmptyString /\ string_all (fun c => negb (Str.is_word c)) s = true.
Proof.
  revert cur. induction s as [|c s IH]; intros cur; simpl.
  - destruct cur; split; try tauto; try discriminate. intros [H _]. discriminate.
  - destruct (Str.is_word c) eqn:Hw; simpl.
    + rewrite IH. split; [|intros [_ H]; discriminate].
      intros [H _]. destruct cur; discriminate.
    + destruct cur as [|x cur].
      * rewrite IH. tauto.
      * split; [discriminate | intros [H _]; discriminate].
Qed.

(** X8.  A query has no token exactly when it has no word character: the
    empty query and the queries made of punctuation and spaces. *)
Theorem clean_query_empty_iff (q : string) :
  Str.clean_query q = [] <-> string_all (fun c => negb (Str.is_word c)) q = true.
Proof.
  rewrite clean_query_words, words_from_nil. tauto.
Qed.

(** ** The counter and the selections (lines 78-80 and 88) *)

(** X9.  The counter holds every distinct word once, with the number of its
    occurrences, and nothing else. *)
Theorem Counter_contents (ws : list string) :
  NoDup (map fst (Counter ws))
  /\ (forall w n, In (w, n) (Counter ws) <-> In w ws /\ n = occurrences ws w).
Proof.
  destruct (Counter_spec ws) as (Hnd & Hkeys & _ & _).
  split; [assumption|]. intros w n. split.
  - intros H. apply (Counter_items ws (w, n) H).
  - intros [Hin ->]. apply Hkeys in Hin.
    apply in_map_iff in Hin as ([k m] & Hk & Hin). simpl in Hk. subst k.
    destruct (Counter_items ws (w, m) Hin) as [_ E]. simpl in E. now subst m.
Qed.

Lemma counter_incr_sum (w : string) (c : list (string * Z)) :
  sum_Z (map snd (counter_incr w c)) = (sum_Z (map snd c) + 1)%Z.
Proof.
  induction c as [|[k n] c IH]; simpl; [reflexivity|].
  destruct (String.eqb k w); simpl; [lia|]. rewrite IH. lia.
Qed.

(** X10.  The counts of the counter add up to the number of words counted. *)
Theorem Counter_total (ws : list string) :
  sum_Z (map snd (Counter ws)) = Z.of_nat (List.length ws).
Proof.
  induction ws as [|w ws IH] using rev_ind; [reflexivity|].
  rewrite Counter_snoc, counter_incr_sum, IH, length_app. simpl. lia.
Qed.

(** X11.  [most_common n] returns [n] entries, or all of them when the counter
    has fewer; it returns only entries of the counter, and when [n]
    covers the counter it returns all of them, reordered. *)
Theorem most_common_size (n : nat) (c : list (string * Z)) :
  List.length (most_common n c) = Nat.min n (List.length c)
  /\ (forall x, In x (most_common n c) -> In x c)
  /\ (List.length c <= n -> Permutation (most_common n c) c).
Proof.
  unfold most_common.
  set (gtb := fun a b : string * Z => (snd a >? snd b)%Z).
  split; [|split].
  - now rewrite length_firstn, sort_desc_length.
  - intros x Hx. apply in_firstn in Hx.
    eapply Permutation_in; [apply sort_desc_perm | exact Hx].
  - intros Hlen. rewrite firstn_all2 by (now rewrite sort_desc_length).
    apply sort_desc_perm.
Qed.

Lemma most_common_size_witness :
  List.length (Counter ["vpn"; "login"; "vpn"]) <= 5
  /\ Permutation (most_common 5 (Counter ["vpn"; "login"; "vpn"]))
                 (Counter ["vpn"; "login"; "vpn"]).
Proof.
  split; [vm_compute; lia|].
  apply (proj2 (proj2 (most_common_size 5 (Counter ["vpn"; "login"; "vpn"])))).
  vm_compute. lia.
Defined.

(** X12.  [nlargest n] never drops a row for being NaN: it returns [n] rows,
    or all of them when there are fewer, and they are rows of the input. *)
Theorem nlargest_size {A} (rank : list pyfloat -> nat -> Z) (n : nat)
        (rows : list (A * pyfloat)) :
  List.length (nlargest rank n rows) = Nat.min n (List.length rows)
  /\ exists rest, Permutation (nlargest rank n rows ++ rest) rows.
Proof.
  unfold nlargest.
  set (all := ranked_numbers rank n rows ++ filter _ rows).
  assert (Hperm : Permutation all rows).
  { subst all.
    etransitivity; [|apply (filter_split_perm (fun r => negb (isnan (snd r))) rows)].
    apply Permutation_app; [apply ranked_numbers_perm|].
    erewrite filter_ext; [reflexivity|]. intros r. simpl. now rewrite negb_involutive. }
  split.
  - rewrite length_firstn. now rewrite (Permutation_length Hperm).
  - exists (skipn n all). now rewrite firstn_skipn.
Qed.

(** ** The steps on their own (lines 62-91) *)

Lemma rmapM_total {A B} (f : A -> result B) (l : list A) :
  Forall (fun x => exists y, f x = OK y) l ->
  exists ys, rmapM f l = OK ys /\ List.length ys = List.length l.
Proof.
  induction 1 as [|x l [y Hy] _ (ys & IH & Hlen)]; simpl.
  - exists []. auto.
  - rewrite Hy, IH. simpl. exists (y :: ys). simpl. auto.
Qed.

Lemma rmapM_raise_inv {A B} (f : A -> result B) (l : list A) (e : exn) :
  rmapM f l = Raise e -> exists x, In x l /\ f x = Raise e.
Proof.
  induction l as [|x l IH]; simpl; [discriminate|].
  destruct (f x) as [y|e'] eqn:Hx; simpl.
  - destruct (rmapM f l) as [ys|e'']; simpl; [discriminate|].
    intros H. inversion H; subst. destruct (IH eq_refl) as (x' & Hin & Hx').
    exists x'. auto.
  - intros H. inversion H; subst. exists x. auto.
Qed.

Lemma StronglySorted_Forall2 {A B} (R : A -> B -> Prop)
      (P : A -> A -> Prop) (Q : B -> B -> Prop) (l : list A) (l' : list B) :
  (forall a a' b b', R a b -> R a' b' -> P a a' -> Q b b') ->
  Forall2 R l l' -> StronglySorted P l -> StronglySorted Q l'.
Proof.
  intros HPQ HR. induction HR as [|a b l l' Hab HR IH]; intros Hs; [constructor|].
  inversion Hs as [|? ? Hs' Ha]; subst. constructor; [auto|].
  clear IH Hs Hs'. induction HR as [|a' b' l l' Hab' _ IH]; constructor.
  - inversion Ha; subst. eapply HPQ; eauto.
  - inversion Ha; subst. auto.
Qed.

Lemma div_le_cross (a b c d : Z) :
  (0 <= a -> 0 < b -> 0 < d -> a * d <= c * b -> a / b <= c / d)%Z.
Proof.
  intros Ha Hb Hd H. apply Z.div_le_lower_bound; [assumption|].
  pose proof (Z.mul_div_le a b Hb). 
  assert (0 <= a / b)%Z by (apply Z.div_pos; lia). nia.
Qed.

(** [int()] keeps the order of the numbers. *)
Lemma trunc_monotone (p q : Q) :
  (p <= q)%Q ->
  (Z.quot (Qnum p) (Zpos (Qden p)) <= Z.quot (Qnum q) (Zpos (Qden q)))%Z.
Proof.
  unfold Qle. destruct p as [a b], q as [c d]. simpl. intros H.
  assert (Hb : (0 < Zpos b)%Z) by lia. assert (Hd : (0 < Zpos d)%Z) by lia.
  destruct (Z_le_gt_dec 0 a) as [Ha|Ha].
  - assert (Hc : (0 <= c)%Z) by nia.
    rewrite !Z.quot_div_nonneg by lia. now apply div_le_cross.
  - replace a with (- - a)%Z by lia. rewrite Z.quot_opp_l by lia.
    rewrite (Z.quot_div_nonneg (- a)) by lia.
    assert (0 <= - a / Zpos b)%Z by (apply Z.div_pos; lia).
    destruct (Z_le_gt_dec 0 c) as [Hc|Hc].
    + rewrite Z.quot_div_nonneg by lia.
      assert (0 <= c / Zpos d)%Z by (apply Z.div_pos; lia). lia.
    + replace c with (- - c)%Z by lia. rewrite Z.quot_opp_l by lia.
      rewrite (Z.quot_div_nonneg (- c)) by lia.
      assert ((- c) / Zpos d <= (- a) / Zpos b)%Z by (apply div_le_cross; lia).
      lia.
Qed.

Section Steps.

Variable to_datetime : cell -> result timestamp.
Variable numeric_of_object : cell -> number.
Variable tie_rank : list pyfloat -> nat -> Z.

#[local] Abbreviation user_table := (user_data numeric_of_object tie_rank).
#[local] Abbreviation ranked := (user_rows numeric_of_object).

(** X13.  With at least ten rows holding a number and no infinite value, the
    user table is built and has exactly ten rows, whatever the other
    views cells hold. *)
Theorem user_data_succeeds (df : frame) :
  3 < ncols df ->
  Forall (fun r => forall neg, snd r <> Inf neg) (ranked df) ->
  10 <= List.length (filter (fun r => negb (isnan (snd r))) (ranked df)) ->
  exists data,
    user_table df = OK ([CStr "User"; CStr "Views"] :: data)
    /\ List.length data = 10.
Proof.
  intros Hcols Hfin Hlen.
  unfold user_data, column. apply Nat.ltb_lt in Hcols. rewrite Hcols.
  cbn [rbind]. cbv zeta. rewrite rmapM_map.
  set (d := common _ _).
  unfold nlargest.
  set (numeric := filter (fun r => negb (isnan (snd r))) (ranked df)) in *.
  set (sorted := ranked_numbers tie_rank 10 (ranked df)).
  assert (Hperm : Permutation sorted numeric) by apply ranked_numbers_perm.
  assert (Hs : List.length sorted = List.length numeric)
    by apply (Permutation_length Hperm).
  rewrite firstn_app. replace (10 - List.length sorted) with 0 by lia.
  simpl firstn at 2. rewrite app_nil_r.
  destruct (rmapM_total (fun r => user_row (astype d (fst r), snd r))
                        (firstn 10 sorted)) as (data & Hm & Hl).
  - apply Forall_forall. intros r Hr. apply in_firstn in Hr.
    assert (Hin : In r numeric)
      by (eapply Permutation_in; [exact Hperm | exact Hr]).
    apply filter_In in Hin as [Hin Hnan].
    rewrite Forall_forall in Hfin. specialize (Hfin r Hin).
    unfold user_row. cbn [fst snd]. destruct (snd r) as [|neg|q]; simpl in *.
    + discriminate.
    + exfalso. now apply (Hfin neg).
    + eauto.
  - exists data. rewrite Hm. simpl. split; [reflexivity|].
    rewrite Hl, length_firstn. lia.
Qed.

(** X14.  A missing column ends a step before any row is looked at: the user
    step raises [KeyError] exactly when the frame has no column 3, the
    search step exactly when it has no column 1, and the article step
    raises [IndexError] when the frame has no column 8. *)
Theorem missing_column_errors (df : frame) :
  (ncols df <= 3 <-> user_table df = Raise KeyError)
  /\ (ncols df <= 1 <-> search_data df = Raise KeyError)
  /\ (ncols df <= 8 -> questions_data to_datetime df = Raise IndexError).
Proof.
  split; [|split].
  - unfold user_data, column.
    destruct (3 <? ncols df)%nat eqn:Hc; cbn [rbind]; cbv zeta.
    + apply Nat.ltb_lt in Hc. split; [lia|].
      destruct (rmapM user_row _) as [data|e] eqn:Hm; simpl; [discriminate|].
      intros H. inversion H; subst.
      apply rmapM_raise_inv in Hm as (r & _ & Hr).
      unfold user_row in Hr. destruct (snd r); discriminate.
    + apply Nat.ltb_ge in Hc. tauto.
  - unfold search_data, column.
    destruct (1 <? ncols df)%nat eqn:Hc; simpl.
    + apply Nat.ltb_lt in Hc. split; [lia|].
      destruct (rmapM clean_query_cell _) as [cleaned|e] eqn:Hm; simpl; [discriminate|].
      intros H. inversion H; subst.
      apply rmapM_raise_inv in Hm as (c & _ & Hc').
      destruct c; discriminate.
    + apply Nat.ltb_ge in Hc. tauto.
  - intros Hc. unfold questions_data, iloc_cols. simpl.
    destruct (1 <? ncols df)%nat eqn:H1; simpl; [|reflexivity].
    destruct (3 <? ncols df)%nat eqn:H3; simpl; [|reflexivity].
    destruct (8 <? ncols df)%nat eqn:H8; simpl; [|reflexivity].
    apply Nat.ltb_lt in H8. lia.
Qed.

(** X16.  The user table lists its views in non-increasing order. *)
Theorem user_views_descending (df : frame) (tbl : table) :
  user_table df = OK tbl ->
  exists data,
    tbl = [CStr "User"; CStr "Views"] :: data
    /\ StronglySorted (fun a b => (views_of_row b <= views_of_row a)%Z) data.
Proof.
  intros H.
  destruct (user_data_top10 numeric_of_object tie_rank df tbl H)
    as (top & data & rest & d & _ & -> & Hrows & _ & Hsorted & _).
  exists data. split; [reflexivity|].
  eapply StronglySorted_Forall2; [|exact Hrows|exact Hsorted].
  intros a a' b b' (q & Hq & ->) (q' & Hq' & ->) Hle. simpl.
  rewrite Hq, Hq' in Hle. apply float_gtb_fin_false in Hle.
  now apply trunc_monotone.
Qed.

(** X20.  When more than ten rows are ranked, rows with equal views are
    selected in file order: of the rows with a given value the selection
    holds the first ones.  (With ten rows or fewer the order among equal
    views is the one the library's sort leaves.) *)
Theorem user_ties_in_file_order (df : frame) (tbl : table) :
  user_table df = OK tbl ->
  10 < List.length (ranked df) ->
  forall v, exists tail,
    filter (fun r => float_eqb v (snd r)) (ranked df)
    = filter (fun r => float_eqb v (snd r)) (nlargest tie_rank 10 (ranked df)) ++ tail.
Proof.
  intros H Hmany.
  destruct (user_data_top10 numeric_of_object tie_rank df tbl H)
    as (top & data & rest & d & -> & _ & _ & _ & _ & _ & _ & _ & Hties).
  exact (Hties Hmany).
Qed.

End Steps.

(** X15.  The search step succeeds when every query cell is text and raises
    [TypeError] as soon as one is not, an empty cell included. *)
Theorem search_data_outcome (df : frame) (queries : list cell) :
  column df 1 = OK queries ->
  (Forall (fun c => exists s, c = CStr s) queries ->
   exists tbl, search_data df = OK tbl)
  /\ (Exists (fun c => forall s, c <> CStr s) queries ->
      search_data df = Raise TypeError).
Proof.
  intros Hcol. unfold search_data. rewrite Hcol. simpl. split.
  - intros Hall. destruct (clean_all_text queries Hall) as [cleaned Hc].
    rewrite Hc. simpl. eauto.
  - intros Hex.
    destruct (rmapM_raises clean_query_cell queries) as (e & c & Hm & _ & Hc).
    + eapply Exists_impl; [|exact Hex]. simpl. intros c Hc.
      destruct c as [s| | |]; simpl; eauto. exfalso. now apply (Hc s).
    + rewrite Hm. simpl. destruct c; simpl in Hc; congruence.
Qed.

Lemma user_data_succeeds_witness :
  3 < ncols busy_users
  /\ 10 <= List.length (filter (fun r => negb (isnan (snd r)))
                               (user_rows Sample.numeric_of_object busy_users))
  /\ exists data,
      user_data Sample.numeric_of_object Sample.tie_rank busy_users
      = OK ([CStr "User"; CStr "Views"] :: data)
      /\ List.length data = 10.
Proof.
  split; [simpl; lia|]. split; [vm_compute; lia|].
  apply (user_data_succeeds Sample.numeric_of_object Sample.tie_rank busy_users).
  - simpl. lia.
  - apply Forall_forall. intros r Hr neg.
    unfold user_rows in Hr. apply in_map_iff in Hr as (i & <- & Hi).
    apply in_seq in Hi. simpl in Hi.
    do 16 (destruct i as [|i]; [try lia; simpl; discriminate|]). lia.
  - vm_compute. lia.
Defined.

Lemma missing_column_errors_witness :
  ncols Sample.searches <= 8
  /\ questions_data Sample.to_datetime Sample.searches = Raise IndexError.
Proof.
  split; [simpl; lia|].
  apply (proj2 (proj2 (missing_column_errors Sample.to_datetime
                         Sample.numeric_of_object Sample.tie_rank Sample.searches))).
  simpl. lia.
Defined.

Lemma user_views_descending_witness :
  user_data Sample.numeric_of_object Sample.tie_rank (Sample.users (CInt 5))
  = OK [[CStr "User"; CStr "Views"]; [CStr "carol"; CInt 7];
        [CStr "alice"; CInt 5]; [CStr "bob"; CInt 5]]
  /\ exists data,
      [[CStr "User"; CStr "Views"]; [CStr "carol"; CInt 7];
       [CStr "alice"; CInt 5]; [CStr "bob"; CInt 5]]
      = [CStr "User"; CStr "Views"] :: data
      /\ StronglySorted (fun a b => (views_of_row b <= views_of_row a)%Z) data.
Proof.
  split; [reflexivity|].
  apply (user_views_descending Sample.numeric_of_object Sample.tie_rank
           (Sample.users (CInt 5))).
  reflexivity.
Defined.

Lemma user_ties_in_file_order_witness :
  user_data Sample.numeric_of_object Sample.reverse_rank tied_users
  = OK ([CStr "User"; CStr "Views"]
        :: map (fun k => [CStr (Cal.decimal (Z.of_nat k)); CInt 5]) (seq 0 10))
  /\ 10 < List.length (user_rows Sample.numeric_of_object tied_users)
  /\ (exists tail,
         filter (fun r => float_eqb (Fin 5) (snd r))
                (user_rows Sample.numeric_of_object tied_users)
         = filter (fun r => float_eqb (Fin 5) (snd r))
                  (nlargest Sample.reverse_rank 10
                            (user_rows Sample.numeric_of_object tied_users))
           ++ tail)
  /\ user_data Sample.numeric_of_object Sample.tie_rank (Sample.users (CInt 5))
     = OK [[CStr "User"; CStr "Views"]; [CStr "carol"; CInt 7];
           [CStr "alice"; CInt 5]; [CStr "bob"; CInt 5]]
  /\ user_data Sample.numeric_of_object Sample.reverse_rank (Sample.users (CInt 5))
     = OK [[CStr "User"; CStr "Views"]; [CStr "carol"; CInt 7];
           [CStr "bob"; CInt 5]; [CStr "alice"; CInt 5]].
Proof.
  split; [reflexivity|]. split; [vm_compute; lia|].
  split; [|split; reflexivity].
  apply (user_ties_in_file_order Sample.numeric_of_object Sample.reverse_rank tied_users
           _ eq_refl).
  vm_compute. lia.
Defined.

Lemma search_data_outcome_witness :
  column (frame_of_rows 2 [[CInt 1; CStr "vpn"]; [CInt 2; Sample.empty]]) 1
  = OK [CStr "vpn"; Sample.empty]
  /\ search_data (frame_of_rows 2 [[CInt 1; CStr "vpn"]; [CInt 2; Sample.empty]])
     = Raise TypeError.
Proof.
  split; [reflexivity|].
  apply (proj2 (search_data_outcome
                  (frame_of_rows 2 [[CInt 1; CStr "vpn"]; [CInt 2; Sample.empty]])
                  [CStr "vpn"; Sample.empty] eq_refl)).
  apply Exists_cons_tl, Exists_cons_hd. discriminate.
Defined.

(** ** Aborted runs (lines 46-91) *)

Section Aborts.

Variable to_datetime : cell -> result timestamp.
Variable numeric_of_object : cell -> number.
Variable render : list flowable -> result unit.
Variable tie_rank : list pyfloat -> nat -> Z.

(** X19.  When the two date cells are read and a later step raises, the run
    ends with that step's exception; the console has gained the date
    warning if the range is unavailable and nothing otherwise, and the
    output file is as it was. *)
Theorem aborted_run_console (files : inputs) (df : frame) (c1 c2 : cell)
        (e : exn) (w : world) :
  categories_xls files = OK df ->
  iloc df 0 1 = OK c1 ->
  iloc df 1 1 = OK c2 ->
  later_tables to_datetime numeric_of_object tie_rank files = Raise e ->
  run to_datetime numeric_of_object render tie_rank files w
  = (Raise e,
     mkWorld (stdout w ++ (if dates_unavailable c1 c2 then [date_error_line] else []))
             (pdf_file w)).
Proof.
  intros Hc H1 H2 Hl. rewrite run_cases, Hc, H1, H2, Hl. reflexivity.
Qed.

End Aborts.

Lemma aborted_run_console_witness :
  later_tables Sample.to_datetime Sample.numeric_of_object Sample.tie_rank
    (Sample.files (CInt 45000) (CInt 45030) (CStr "soon") (CInt 5))
  = Raise ValueError
  /\ run Sample.to_datetime Sample.numeric_of_object Sample.render Sample.tie_rank
       (Sample.files (CInt 45000) (CInt 45030) (CStr "soon") (CInt 5)) Sample.world0
     = (Raise ValueError, mkWorld [date_error_line] None).
Proof.
  split; [reflexivity|].
  exact (aborted_run_console Sample.to_datetime Sample.numeric_of_object
           Sample.render Sample.tie_rank
           (Sample.files (CInt 45000) (CInt 45030) (CStr "soon") (CInt 5))
           _ _ _ ValueError Sample.world0 eq_refl eq_refl eq_refl eq_refl).
Defined.

(** ** The serial-date helper (lines 11-24) *)

Lemma all_from_spec (f : Z -> bool) (count : nat) (start z : Z) :
  all_from f start count = true ->
  (start <= z < start + Z.of_nat count)%Z -> f z = true.
Proof.
  revert start. induction count as [|k IH]; intros start H Hz; [lia|].
  simpl in H. apply andb_true_iff in H as [H0 H1].
  destruct (Z.eq_dec z start) as [->|Hne]; [assumption|].
  apply (IH (start + 1)%Z); [assumption | lia].
Qed.

Lemma cycle_days_ok : all_from cycle_day_ok 0 (Z.to_nat 146097) = true.
Proof. vm_compute. reflexivity. Qed.

Lemma is_leap_cycle (y k : Z) : Cal.is_leap (y + 400 * k) = Cal.is_leap y.
Proof.
  unfold Cal.is_leap.
  replace (y + 400 * k)%Z with (y + (100 * k) * 4)%Z at 1 by lia.
  replace (y + 400 * k)%Z with (y + (4 * k) * 100)%Z at 1 by lia.
  replace (y + 400 * k)%Z with (y + k * 400)%Z by lia.
  now rewrite !Z.mod_add by lia.
Qed.

Lemma days_before_year_cycle (y k : Z) :
  Serial.days_before_year (y + 400 * k)
  = (Serial.days_before_year y + 146097 * k)%Z.
Proof.
  unfold Serial.days_before_year. cbv zeta.
  replace ((y + 400 * k - 1) / 4)%Z with ((y - 1) / 4 + 100 * k)%Z
    by (rewrite <- Z.div_add by lia; f_equal; lia).
  replace ((y + 400 * k - 1) / 100)%Z with ((y - 1) / 100 + 4 * k)%Z
    by (rewrite <- Z.div_add by lia; f_equal; lia).
  replace ((y + 400 * k - 1) / 400)%Z with ((y - 1) / 400 + k)%Z
    by (rewrite <- Z.div_add by lia; f_equal; lia).
  lia.
Qed.

Lemma ymd2ord_cycle (k : Z) (d : date) :
  Serial.ymd2ord (shift_years (400 * k) d) = (Serial.ymd2ord d + 146097 * k)%Z.
Proof.
  unfold Serial.ymd2ord, shift_years. cbn [year month day].
  rewrite is_leap_cycle, days_before_year_cycle. lia.
Qed.

Lemma valid_cycle (k : Z) (d : date) :
  Cal.valid d = true ->
  (1 <= year d + 400 * k <= 9999)%Z ->
  Cal.valid (shift_years (400 * k) d) = true.
Proof.
  unfold Cal.valid, shift_years, Cal.days_in_month. cbn [year month day].
  rewrite is_leap_cycle. intros H Hy.
  repeat (apply andb_true_iff in H as [H ?]).
  repeat (apply andb_true_iff; split); try assumption; apply Z.leb_le; lia.
Qed.

(** An ordinal is its place in the 400-year cycle, moved by whole cycles. *)
Lemma ord2ymd_cycle (n : Z) :
  Serial.ord2ymd n
  = shift_years (400 * ((n - 1) / 146097))
                (Serial.ord2ymd ((n - 1) mod 146097 + 1)).
Proof.
  unfold Serial.ord2ymd. cbv zeta.
  replace ((n - 1) mod 146097 + 1 - 1)%Z with ((n - 1) mod 146097)%Z by lia.
  pose proof (Z.mod_pos_bound (n - 1) 146097 eq_refl) as Hr.
  set (r := ((n - 1) mod 146097)%Z) in *.
  rewrite (Z.div_small r 146097), (Z.mod_small r 146097) by lia.
  set (n100 := (r / 36524)%Z).
  set (r1 := (r mod 36524)%Z).
  set (n4 := (r1 / 1461)%Z).
  set (r2 := (r1 mod 1461)%Z).
  set (n1 := (r2 / 365)%Z).
  set (r3 := (r2 mod 365)%Z).
  unfold shift_years.
  destruct ((n1 =? 4)%Z || (n100 =? 4)%Z); cbn [year month day]; [f_equal; lia|].
  destruct (_ >? r3)%Z; cbn [year month day]; f_equal; lia.
Qed.

(** Every ordinal converts to a date and back; the ordinals of the
    dates [datetime] can hold convert to real dates. *)
Lemma ord2ymd_spec (n : Z) :
  Serial.ymd2ord (Serial.ord2ymd n) = n
  /\ ((1 <= n <= Serial.MAXORDINAL)%Z -> Cal.valid (Serial.ord2ymd n) = true).
Proof.
  pose proof (Z.mod_pos_bound (n - 1) 146097 eq_refl) as Hr.
  pose proof (Z.div_mod (n - 1) 146097 ltac:(lia)) as Hdm.
  pose proof (all_from_spec _ _ _ ((n - 1) mod 146097) cycle_days_ok) as Hok.
  rewrite Z2Nat.id in Hok by lia. specialize (Hok ltac:(lia)).
  unfold cycle_day_ok in Hok. cbv zeta in Hok.
  apply andb_true_iff in Hok as [Hok Hlast].
  apply andb_true_iff in Hok as [Hok Hy400].
  apply andb_true_iff in Hok as [Hvalid Hrt].
  apply Z.eqb_eq in Hrt. apply Z.leb_le in Hy400.
  rewrite ord2ymd_cycle, ymd2ord_cycle, Hrt.
  split; [lia|].
  unfold Serial.MAXORDINAL. intros Hn. apply valid_cycle; [assumption|].
  assert (Hy1 : (1 <= year (Serial.ord2ymd ((n - 1) mod 146097 + 1)))%Z).
  { unfold Cal.valid in Hvalid.
    repeat (apply andb_true_iff in Hvalid as [Hvalid ?]).
    now apply Z.leb_le. }
  assert (Hq : (0 <= (n - 1) / 146097 <= 24)%Z).
  { split; [apply Z.div_pos; lia|].
    assert ((n - 1) / 146097 < 25)%Z by (apply Z.div_lt_upper_bound; lia). lia. }
  destruct (Z.eq_dec ((n - 1) / 146097) 24) as [E|E]; [|lia].
  apply orb_true_iff in Hlast as [H|H].
  - apply Z.ltb_lt in H. lia.
  - apply Z.leb_le in H. lia.
Qed.

Lemma excel_int_eq (z : Z) :
  Serial.excel_date_to_datetime (CInt z)
  = if ((-693593 <=? z) && (z <=? 2958465))%Z
    then OK (Some (Serial.ord2ymd (693594 + z)))
    else Raise OverflowError.
Proof.
  unfold Serial.excel_date_to_datetime, Serial.int_of_cell, Serial.MAXORDINAL.
  replace (Serial.ymd2ord (mkDate 1899 12 30)) with 693594%Z by reflexivity.
  destruct ((-693593 <=? z) && (z <=? 2958465))%Z eqn:Hb.
  - apply andb_true_iff in Hb as [H1 H2]. apply Z.leb_le in H1, H2.
    replace (Z.abs z <=? 999999999)%Z with true by (symmetry; apply Z.leb_le; lia).
    replace (0 <? 693594 + z)%Z with true by (symmetry; apply Z.ltb_lt; lia).
    replace (693594 + z <=? 3652059)%Z with true by (symmetry; apply Z.leb_le; lia).
    reflexivity.
  - destruct ((Z.abs z <=? 999999999) && (0 <? 693594 + z)
              && (693594 + z <=? 3652059))%Z eqn:Hc; [|reflexivity].
    repeat (apply andb_true_iff in Hc as [Hc ?]).
    apply Z.ltb_lt in H0. apply Z.leb_le in H.
    apply andb_false_iff in Hb as [Hb|Hb]; apply Z.leb_gt in Hb; lia.
Qed.

(** X2.  A whole serial number from -693593 to 2958465 converts to the real
    calendar date that many days after 30 December 1899 (its ordinal is
    693594 plus the serial); any other whole number raises
    [OverflowError]. *)
Theorem excel_serial_range (z : Z) :
  ((-693593 <= z <= 2958465)%Z ->
   exists d,
     Serial.excel_date_to_datetime (CInt z) = OK (Some d)
     /\ Cal.valid d = true
     /\ Serial.ymd2ord d = (Serial.ymd2ord (mkDate 1899 12 30) + z)%Z)
  /\ ((z < -693593 \/ 2958465 < z)%Z ->
      Serial.excel_date_to_datetime (CInt z) = Raise OverflowError).
Proof.
  rewrite excel_int_eq. split.
  - intros Hz.
    replace ((-693593 <=? z) && (z <=? 2958465))%Z with true
      by (symmetry; apply andb_true_iff; split; apply Z.leb_le; lia).
    exists (Serial.ord2ymd (693594 + z)).
    destruct (ord2ymd_spec (693594 + z)) as [Hrt Hv].
    split; [reflexivity|]. split; [apply Hv; unfold Serial.MAXORDINAL; lia|].
    rewrite Hrt. reflexivity.
  - intros Hz.
    replace ((-693593 <=? z) && (z <=? 2958465))%Z with false; [reflexivity|].
    symmetry. apply andb_false_iff.
    destruct Hz; [left | right]; apply Z.leb_gt; lia.
Qed.

Lemma excel_serial_range_witness :
  (-693593 <= 45000 <= 2958465)%Z
  /\ exists d,
      Serial.excel_date_to_datetime (CInt 45000) = OK (Some d)
      /\ Cal.valid d = true
      /\ Serial.ymd2ord d = (Serial.ymd2ord (mkDate 1899 12 30) + 45000)%Z.
Proof.
  split; [lia|]. apply (proj1 (excel_serial_range 45000)). lia.
Defined.

Lemma OK_Some_inj {A} (a b : A) : OK (Some a) = OK (Some b) -> a = b.
Proof. intros H. now inversion H. Qed.

(** X3.  Two whole serial numbers that convert to the same date are equal. *)
Theorem excel_serial_injective (a b : Z) (d : date) :
  Serial.excel_date_to_datetime (CInt a) = OK (Some d) ->
  Serial.excel_date_to_datetime (CInt b) = OK (Some d) ->
  a = b.
Proof.
  rewrite !excel_int_eq.
  destruct (_ && _)%bool; [|discriminate].
  destruct (_ && _)%bool; [|discriminate].
  intros Ha Hb. apply OK_Some_inj in Ha, Hb.
  rename Ha into Ea, Hb into Eb.
  pose proof (proj1 (ord2ymd_spec (693594 + a))) as Ra.
  pose proof (proj1 (ord2ymd_spec (693594 + b))) as Rb.
  rewrite Ea in Ra. rewrite Eb in Rb. lia.
Qed.

Lemma excel_serial_injective_witness :
  Serial.excel_date_to_datetime (CInt 45000) = OK (Some (mkDate 2023 3 15))
  /\ 45000%Z = 45000%Z.
Proof.
  split; [reflexivity|].
  exact (excel_serial_injective 45000 45000 (mkDate 2023 3 15) eq_refl eq_refl).
Defined.

(** X1.  The helper swallows [ValueError] only: it never raises it.  It
    raises [TypeError] exactly on a date-time object, and besides that
    only [OverflowError].  It returns [None] exactly on an empty cell
    and on text that [int()] refuses: text that is not a whole number
    (["n/a"], ["12.5"], the empty text), text with more than 4300
    digits, and a number behind one of the separators U+001C to U+001F,
    which [str.strip] would remove but [int()] does not skip; blanks
    around a number are skipped. *)
Theorem excel_helper_errors (c : cell) :
  Serial.excel_date_to_datetime c <> Raise ValueError
  /\ (Serial.excel_date_to_datetime c = Raise TypeError <-> exists d us, c = CDate d us)
  /\ (forall e, Serial.excel_date_to_datetime c = Raise e ->
                e = TypeError \/ e = OverflowError)
  /\ (Serial.excel_date_to_datetime c = OK None
      <-> c = CFloat NaN \/ exists s, c = CStr s /\ Serial.int_of_string s = None)
  /\ Serial.int_of_string "n/a" = None
  /\ Serial.int_of_string "12.5" = None
  /\ Serial.int_of_string "" = None
  /\ Serial.int_of_string " 42 " = Some 42%Z
  /\ Serial.int_of_string (String (ascii_of_nat 28) "42") = None
  /\ Str.isspace (ascii_of_nat 28) = true
  /\ (forall s, Serial.max_str_digits < Serial.count_digits s ->
                Serial.int_of_string s = None).
Proof.
  assert (Hrange : forall z,
             (if ((Z.abs z <=? 999999999)
                  && (0 <? Serial.ymd2ord (mkDate 1899 12 30) + z)
                  && (Serial.ymd2ord (mkDate 1899 12 30) + z <=? Serial.MAXORDINAL))%Z
              then OK (Some (Serial.ord2ymd (Serial.ymd2ord (mkDate 1899 12 30) + z)))
              else Raise OverflowError)
             = Serial.excel_date_to_datetime (CInt z)) by reflexivity.
  assert (Hint : forall z e,
             Serial.excel_date_to_datetime (CInt z) = Raise e -> e = OverflowError).
  { intros z e. rewrite <- Hrange. destruct (_ && _)%bool; [discriminate|].
    intros H. now inversion H. }
  assert (Hsome : forall z, Serial.excel_date_to_datetime (CInt z) <> OK None).
  { intros z. rewrite <- Hrange. destruct (_ && _)%bool; discriminate. }
  assert (Hs : forall s, Serial.excel_date_to_datetime (CStr s)
                         = match Serial.int_of_string s with
                           | Some z => Serial.excel_date_to_datetime (CInt z)
                           | None => OK None
                           end).
  { intros s. unfold Serial.excel_date_to_datetime, Serial.int_of_cell.
    destruct (Serial.int_of_string s); reflexivity. }
  assert (Hcases :
            (exists z, Serial.excel_date_to_datetime c
                       = Serial.excel_date_to_datetime (CInt z)
                       /\ c <> CFloat NaN
                       /\ forall s, c = CStr s -> Serial.int_of_string s = Some z)
            \/ (Serial.excel_date_to_datetime c = OK None
                /\ (c = CFloat NaN
                    \/ exists s, c = CStr s /\ Serial.int_of_string s = None))
            \/ (Serial.excel_date_to_datetime c = Raise OverflowError)
            \/ (Serial.excel_date_to_datetime c = Raise TypeError
                /\ exists d us, c = CDate d us)).
  { destruct c as [s|z|[|neg|q]|d us].
    - rewrite Hs.
      destruct (Serial.int_of_string s) as [z|] eqn:Hz.
      + left. exists z. split; [reflexivity|]. split; [discriminate|].
        intros s' E. inversion E; subst. assumption.
      + right. left. split; [reflexivity|]. right. exists s. auto.
    - left. exists z. repeat split; discriminate.
    - right. left. split; [reflexivity | now left].
    - right. right. left. reflexivity.
    - left. exists (Z.quot (Qnum q) (Zpos (Qden q))). repeat split; discriminate.
    - right. right. right. split; [reflexivity | now exists d, us]. }
  repeat apply conj; try reflexivity.
  - destruct Hcases as [(z & Hz & _)|[[H _]|[H|[H _]]]]; rewrite ?Hz, ?H;
      try discriminate.
    intros Hv. apply Hint in Hv. discriminate.
  - destruct Hcases as [(z & Hz & _)|[[H _]|[H|[_ H]]]]; rewrite ?Hz, ?H;
      try discriminate; try (intros _; assumption).
    intros Hv. apply Hint in Hv. discriminate.
  - intros (d & us & ->). reflexivity.
  - intros e. destruct Hcases as [(z & Hz & _)|[[H _]|[H|[H _]]]]; rewrite ?Hz, ?H;
      try discriminate.
    + intros Hv. right. eapply Hint; eauto.
    + intros Hv. inversion Hv. now right.
    + intros Hv. inversion Hv. now left.
  - destruct Hcases as [(z & Hz & _)|[[_ H]|[H|[H _]]]]; rewrite ?Hz, ?H;
      try discriminate; try (intros _; assumption).
    intros Hv. exfalso. exact (Hsome z Hv).
  - intros [->|(s & -> & Hn)]; [reflexivity|]. now rewrite Hs, Hn.
  - intros s Hlen. unfold Serial.int_of_string.
    apply Nat.ltb_lt in Hlen. now rewrite Hlen.
Qed.

(** *** Integers written as text *)

Lemma digits_tail_digit (acc : Z) (c : ascii) (t : string) :
  Str.is_digit c = true ->
  Serial.digits_tail acc false (String c t)
  = Serial.digits_tail (10 * acc + Cal.digit_val c) false t.
Proof. intros H. cbn [Serial.digits_tail]. now rewrite H. Qed.

Lemma digits_tail_pos (u : Decimal.uint) (p : positive) :
  Serial.digits_tail (Zpos p) false (NilEmpty.string_of_uint u)
  = Some (Zpos (Pos.of_uint_acc u p)).
Proof.
  revert p.
  induction u; intros p; cbn [NilEmpty.string_of_uint Pos.of_uint_acc];
    [reflexivity| ..];
    rewrite digits_tail_digit by reflexivity; rewrite <- IHu; f_equal;
    match goal with
    | |- context [Cal.digit_val ?c] =>
        let v := eval vm_compute in (Cal.digit_val c) in
        change (Cal.digit_val c) with v
    end; lia.
Qed.

Lemma digits_tail_zero (u : Decimal.uint) :
  Serial.digits_tail 0 false (NilEmpty.string_of_uint u)
  = Some (Z.of_N (Pos.of_uint u)).
Proof.
  induction u; cbn [NilEmpty.string_of_uint Pos.of_uint];
    [reflexivity| ..];
    rewrite digits_tail_digit by reflexivity;
    match goal with
    | |- context [Cal.digit_val ?c] =>
        let v := eval vm_compute in (10 * 0 + Cal.digit_val c)%Z in
        change (10 * 0 + Cal.digit_val c)%Z with v
    end;
    first [ exact IHu | apply digits_tail_pos ].
Qed.

(** The digits of a decimal number are counted one by one. *)
Lemma count_digits_uint (u : Decimal.uint) :
  Serial.count_digits (NilEmpty.string_of_uint u) = Decimal.nb_digits u.
Proof.
  induction u;
    cbn [NilEmpty.string_of_uint Serial.count_digits Decimal.nb_digits];
    [reflexivity| ..];
    match goal with
    | |- context [Str.is_digit ?c] => change (Str.is_digit c) with true
    end; cbv iota; now rewrite IHu.
Qed.

Lemma count_digits_decimal (u : Decimal.uint) :
  Serial.count_digits (NilZero.string_of_uint u) <= Nat.max 1 (Decimal.nb_digits u).
Proof.
  destruct u; [cbn; lia| ..];
    change (NilZero.string_of_uint ?v) with (NilEmpty.string_of_uint v);
    rewrite count_digits_uint; lia.
Qed.

(** A number with [k] more digits is at least [10^k] times its head. *)
Lemma of_uint_acc_lower (u : Decimal.uint) (acc : positive) :
  (Zpos acc * 10 ^ Z.of_nat (Decimal.nb_digits u) <= Zpos (Pos.of_uint_acc u acc))%Z.
Proof.
  revert acc.
  induction u; intros acc; cbn [Pos.of_uint_acc Decimal.nb_digits];
    [rewrite Z.pow_0_r; lia | ..];
    rewrite Nat2Z.inj_succ, Z.pow_succ_r by lia;
    (eapply Z.le_trans; [|apply IHu]);
    assert (0 < 10 ^ Z.of_nat (Decimal.nb_digits u))%Z
      by (apply Z.pow_pos_nonneg; lia);
    nia.
Qed.

Lemma nzhead_not_D0 (u l : Decimal.uint) : Decimal.nzhead u <> Decimal.D0 l.
Proof. induction u; simpl; try discriminate. exact IHu. Qed.

(** A number below [10^9] is written with nine digits at most. *)
Lemma to_uint_digits (n : N) :
  (Z.of_N n <= 999999999)%Z -> Decimal.nb_digits (N.to_uint n) <= 9.
Proof.
  intros Hn. pose proof (DecimalN.Unsigned.of_to n) as Hof.
  pose proof (DecimalN.Unsigned.to_of (N.to_uint n)) as Hnorm.
  rewrite Hof in Hnorm. unfold Decimal.unorm in Hnorm.
  pose proof (nzhead_not_D0 (N.to_uint n)) as Hhead.
  assert (Hbig : forall l (k : positive),
             N.of_uint (N.to_uint n) = Npos (Pos.of_uint_acc l k) ->
             Decimal.nb_digits l <= 8).
  { intros l k E. rewrite Hof in E. subst n.
    pose proof (of_uint_acc_lower l k) as Hlow.
    destruct (le_lt_dec (Decimal.nb_digits l) 8) as [Hle|Hgt]; [assumption|exfalso].
    assert (H9 : (10 ^ 9 <= 10 ^ Z.of_nat (Decimal.nb_digits l))%Z)
      by (apply Z.pow_le_mono_r; lia).
    change (10 ^ 9)%Z with 1000000000%Z in H9.
    change (Z.of_N (Npos (Pos.of_uint_acc l k))) with (Zpos (Pos.of_uint_acc l k)) in Hn.
    nia. }
  destruct (Decimal.nzhead (N.to_uint n)) as [|l|l|l|l|l|l|l|l|l|l] eqn:Hnz;
    rewrite Hnorm in *;
    try (cbn [Decimal.nb_digits]; lia);
    try (exfalso; exact (Hhead l eq_refl));
    cbn [Decimal.nb_digits]; apply le_n_S; eapply Hbig; reflexivity.
Qed.

Lemma int_of_string_uint (u : Decimal.uint) :
  Decimal.nb_digits u <= 9 ->
  Serial.int_of_string (NilZero.string_of_uint u) = Some (Z.of_N (N.of_uint u))
  /\ Serial.int_of_string ("-" ++ NilZero.string_of_uint u)
     = Some (- Z.of_N (N.of_uint u))%Z.
Proof.
  intros Hlen.
  assert (Hcount : Serial.count_digits (NilZero.string_of_uint u) <= 9)
    by (pose proof (count_digits_decimal u); lia).
  assert (H : Serial.digits (NilZero.string_of_uint u) = Some (Z.of_N (N.of_uint u))).
  { unfold N.of_uint. rewrite <- digits_tail_zero.
    destruct u; reflexivity. }
  assert (Hlim : forall n, n <= 9 -> (Serial.max_str_digits <? n)%nat = false).
  { intros n Hle. apply Nat.ltb_ge. unfold Serial.max_str_digits. lia. }
  split.
  - unfold Serial.int_of_string. rewrite (Hlim _ Hcount).
    rewrite <- H. destruct u; reflexivity.
  - unfold Serial.int_of_string.
    change (Serial.count_digits ("-" ++ NilZero.string_of_uint u))
      with (Serial.count_digits (NilZero.string_of_uint u)).
    rewrite (Hlim _ Hcount).
    change (Serial.lstrip ("-" ++ NilZero.string_of_uint u))
      with (String "-" (NilZero.string_of_uint u)).
    cbv iota. rewrite H. reflexivity.
Qed.

(** X4.  [int()] reads back the decimal text of a whole number of up to nine
    digits, so a serial number stored as text converts like the number;
    a float converts like the whole number it is truncated to. *)
Theorem excel_serial_text_and_float (z : Z) (q : Q) :
  (0 <= z <= 999999999)%Z ->
  Serial.int_of_string (Cal.decimal z) = Some z
  /\ Serial.int_of_string ("-" ++ Cal.decimal z) = Some (- z)%Z
  /\ Serial.excel_date_to_datetime (CStr (Cal.decimal z))
     = Serial.excel_date_to_datetime (CInt z)
  /\ Serial.excel_date_to_datetime (CFloat (Fin q))
     = Serial.excel_date_to_datetime (CInt (Z.quot (Qnum q) (Zpos (Qden q)))).
Proof.
  intros Hz.
  destruct (int_of_string_uint (N.to_uint (Z.to_N z))) as [Hp Hn].
  { apply to_uint_digits. rewrite Z2N.id; lia. }
  rewrite DecimalN.Unsigned.of_to, Z2N.id in Hp, Hn by lia.
  split; [exact Hp|]. split; [exact Hn|]. split; [|reflexivity].
  unfold Serial.excel_date_to_datetime, Serial.int_of_cell.
  unfold Cal.decimal in Hp |- *. now rewrite Hp.
Qed.

Lemma excel_serial_text_and_float_witness :
  (0 <= 45000 <= 999999999)%Z
  /\ Serial.int_of_string "45000" = Some 45000%Z.
Proof.
  split; [lia|].
  exact (proj1 (excel_serial_text_and_float 45000 0 ltac:(lia))).
Defined.

(** ** The strict date format (lines 48-52) *)

Lemma group_m_text (m : Z) (rest : string) :
  (1 <= m <= 12)%Z ->
  Cal.group_m (Cal.pad2 m ++ String "/" rest) = Some (m, String "/" rest)
  /\ Cal.group_m (Cal.decimal m ++ String "/" rest) = Some (m, String "/" rest).
Proof.
  intros Hm.
  assert (H : (m = 1 \/ m = 2 \/ m = 3 \/ m = 4 \/ m = 5 \/ m = 6 \/ m = 7
               \/ m = 8 \/ m = 9 \/ m = 10 \/ m = 11 \/ m = 12)%Z) by lia.
  repeat (destruct H as [H|H]; [subst m; split; reflexivity|]).
  subst m. split; reflexivity.
Qed.

Lemma group_d_text (d : Z) (rest : string) :
  (1 <= d <= 31)%Z ->
  Cal.group_d (Cal.pad2 d ++ String "/" rest) = Some (d, String "/" rest)
  /\ Cal.group_d (Cal.decimal d ++ String "/" rest) = Some (d, String "/" rest).
Proof.
  intros Hd.
  assert (H : exists k, (k < 31)%nat /\ d = (1 + Z.of_nat k)%Z)
    by (exists (Z.to_nat (d - 1)); lia).
  destruct H as (k & Hk & ->).
  do 31 (destruct k as [|k]; [split; reflexivity|]). lia.
Qed.

Lemma group_Y_text (y : Z) :
  (1677 <= y <= 2262)%Z -> Cal.group_Y (Cal.decimal y) = Some (y, EmptyString).
Proof.
  intros Hy.
  assert (H : all_from year_text_ok 1677 586 = true) by (vm_compute; reflexivity).
  pose proof (all_from_spec _ _ _ y H ltac:(lia)) as Hok.
  unfold year_text_ok in Hok.
  destruct (Cal.group_Y (Cal.decimal y)) as [[v [|c t]]|]; try discriminate.
  apply Z.eqb_eq in Hok. now subst v.
Qed.

(** X18.  Every real date of the time-stamp range, written as month, day and
    four-digit year separated by slashes, with or without the leading
    zero of month and day, is read back as that date. *)
Theorem strict_format_reads_dates (d : date) :
  Cal.valid d = true ->
  Cal.in_bounds d = true ->
  Cal.to_datetime_strict
    (CStr (Cal.pad2 (month d) ++ "/" ++ Cal.pad2 (day d) ++ "/" ++ Cal.decimal (year d)))
  = Some d
  /\ Cal.to_datetime_strict
       (CStr (Cal.decimal (month d) ++ "/" ++ Cal.decimal (day d) ++ "/"
                          ++ Cal.decimal (year d)))
     = Some d.
Proof.
  intros Hv Hb. pose proof (in_bounds_year d Hb) as Hy.
  pose proof Hv as Hv'. unfold Cal.valid in Hv'.
  repeat (apply andb_true_iff in Hv' as [Hv' ?]).
  repeat match goal with
         | H : (_ <=? _)%Z = true |- _ => apply Z.leb_le in H
         end.
  pose proof (days_in_month_le (year d) (month d)) as Hdm.
  assert (Hm : (1 <= month d <= 12)%Z) by lia.
  assert (Hd : (1 <= day d <= 31)%Z) by lia.
  change ("/" ++ Cal.pad2 (day d) ++ "/" ++ Cal.decimal (year d))%string
    with (String "/" (Cal.pad2 (day d) ++ String "/" (Cal.decimal (year d)))).
  change ("/" ++ Cal.decimal (day d) ++ "/" ++ Cal.decimal (year d))%string
    with (String "/" (Cal.decimal (day d) ++ String "/" (Cal.decimal (year d)))).
  unfold Cal.to_datetime_strict, Cal.match_mdY.
  rewrite (proj1 (group_m_text _ _ Hm)), (proj2 (group_m_text _ _ Hm)).
  cbn [Cal.slash]. replace (Ascii.eqb "/" "/") with true by reflexivity.
  rewrite (proj1 (group_d_text _ _ Hd)), (proj2 (group_d_text _ _ Hd)).
  cbn [Cal.slash]. replace (Ascii.eqb "/" "/") with true by reflexivity.
  rewrite (group_Y_text _ Hy).
  destruct d as [y m dd]. cbn [year month day] in *. now rewrite Hv, Hb.
Qed.

Lemma strict_format_reads_dates_witness :
  Cal.valid (mkDate 2024 3 5) = true
  /\ Cal.in_bounds (mkDate 2024 3 5) = true
  /\ Cal.to_datetime_strict (CStr "03/05/2024") = Some (mkDate 2024 3 5)
  /\ Cal.to_datetime_strict (CStr "3/5/2024") = Some (mkDate 2024 3 5).
Proof.
  split; [reflexivity|]. split; [reflexivity|].
  exact (strict_format_reads_dates (mkDate 2024 3 5) eq_refl eq_refl).
Defined.
